(** * Wild Vision: detector, snapshot store, two-layer verifier, frame source

    A shallow embedding of [utils/yolo_detector.py], [utils/verification.py]
    and [utils/video_processor.py], with the constants of [config.py].

    Conventions of the embedding.
    - A Python [float] is an IEEE-754 binary64 value, [spec_float] with
      precision 53 and maximal exponent 1024; comparisons are [SFltb] and
      [SFleb], so a NaN compares false with everything, as in Python.
    - A call that may raise returns an [outcome]; [try: ... except Exception]
      is [try_except].  Only errors deriving from [Exception] are modelled.
    - The disk is a finite map from path to file; [Path.exists],
      [Path.unlink], [cv2.imwrite] and [cv2.imread] act on it.  Removing a
      file that exists succeeds.  What [cv2.imwrite] does on one call
      (write, write a damaged file, refuse, raise) and what the clock reads
      are inputs of that call.
    - The cached result of [load_model()] is a parameter [model].
    - The alerts collection of [alerts/email_service.py] is a list of
      documents.  A [datetime] is a count of microseconds; the collection
      keeps it as a BSON date, cut to the millisecond. *)

From Stdlib Require Import ZArith List String Lia.
From Stdlib Require Import Floats.SpecFloat.
From stdpp Require Import gmap strings list pretty.

Local Open Scope string_scope.
Local Open Scope list_scope.
Local Open Scope Z_scope.

(** ** Python values *)

Abbreviation float := spec_float.

(** binary64 arithmetic *)
Definition prec64 : Z := 53.
Definition emax64 : Z := 1024.

Definition float_of_Z (z : Z) : float := binary_normalize prec64 emax64 z 0 false.
Definition fmul (x y : float) : float := SFmul prec64 emax64 x y.
Definition fsub (x y : float) : float := SFsub prec64 emax64 x y.
Definition fdiv (x y : float) : float := SFdiv prec64 emax64 x y.

(** [a > b] and [a >= b] on floats *)
Definition fgt (a b : float) : bool := SFltb b a.
Definition fge (a b : float) : bool := SFleb b a.

Definition is_nan (x : float) : bool :=
  match x with S754_nan => true | _ => false end.

Inductive exception : Type :=
  | ValueError
  | OverflowError
  | ZeroDivisionError
  | TypeError
  | AttributeError
  | FileNotFoundError
  | OtherException (name : string).

Inductive outcome (A : Type) : Type :=
  | Returned (a : A)
  | Raised (e : exception).
Arguments Returned {A} a.
Arguments Raised {A} e.

#[global] Instance outcome_ret : MRet outcome := λ A a, Returned a.
#[global] Instance outcome_bind : MBind outcome := λ A B f c,
  match c with
  | Returned a => f a
  | Raised e => Raised e
  end.

(** [try: body  except Exception as e: handler e] *)
Definition try_except {A : Type} (body : outcome A) (handler : exception → A) : A :=
  match body with
  | Returned a => a
  | Raised e => handler e
  end.

(** [int(x)] on a float: truncation towards zero; NaN and the infinities
    raise. *)
Definition py_int (x : float) : outcome Z :=
  match x with
  | S754_zero _ => Returned 0
  | S754_finite s m e => Returned (cond_Zopp s (Z.shiftl (Z.pos m) e))
  | S754_infinity _ => Raised OverflowError
  | S754_nan => Raised ValueError
  end.

(** ** config.py *)

Definition CLASS_NAMES : gmap Z string :=
  <[0 := "Bear"]> (<[1 := "Elephant"]> (<[2 := "Leopard"]> (<[3 := "Tiger"]> ∅))).

Definition LAYER1_CONFIDENCE : float := fdiv (float_of_Z 50) (float_of_Z 100).
Definition LAYER2_CONFIDENCE : float := fdiv (float_of_Z 40) (float_of_Z 100).
Definition AUTO_SNAPSHOT_THRESHOLD : float := fdiv (float_of_Z 75) (float_of_Z 100).

(** [str(SNAPSHOT_DIR)] with the separator that [SNAPSHOT_DIR / filename]
    puts after it; [BASE_DIR] is taken as the current directory. *)
Definition SNAPSHOT_DIR : string := "snapshots/".

Definition WEBCAM_WIDTH : Z := 640.
Definition WEBCAM_HEIGHT : Z := 480.
Definition WEBCAM_FPS : Z := 30.

(** ** utils/yolo_detector.py *)

(** One box of [result.boxes]: [box.cls[0]], [box.conf[0]], [box.xyxy[0]]. *)
Record Box : Type := {
  cls : float;
  conf : float;
  xyxy : float * float * float * float
}.

Record Detection : Type := {
  class_id : Z;
  class_name : string;
  confidence : float;
  bbox : Z * Z * Z * Z
}.

(** The loaded model: [model.predict(image, conf=..., imgsz=..., device=...,
    verbose=False)] gives a list of results, each with its boxes. *)
Record YOLO (Image : Type) : Type := {
  predict : Image → float → outcome (list (list Box))
}.
Arguments predict {Image} _ _ _.

(** The body of the inner loop of [detect_objects]. *)
Definition parse_box (box : Box) : outcome Detection :=
  class_id ← py_int (cls box);
  let confidence := conf box in
  let '(x1, y1, x2, y2) := xyxy box in
  let class_name := default ("Class_" +:+ pretty class_id) (CLASS_NAMES !! class_id) in
  ix1 ← py_int x1;
  iy1 ← py_int y1;
  ix2 ← py_int x2;
  iy2 ← py_int y2;
  mret {| class_id := class_id;
          class_name := class_name;
          confidence := confidence;
          bbox := (ix1, iy1, ix2, iy2) |}.

Definition detect_objects {Image : Type} (model : option (YOLO Image))
    (image : Image) (conf_threshold : float) : list Detection :=
  match model with
  | None => []
  | Some m =>
      try_except
        (results ← predict m image conf_threshold;
         mapM parse_box (concat results))
        (λ _, [])
  end.

(** [max(detections, key=lambda x: x['confidence'])] on a non-empty list:
    the running maximum is replaced only by an item whose key is strictly
    greater. *)
Definition max_by_confidence (first : Detection) (rest : list Detection) : Detection :=
  fold_left
    (λ best item, if fgt (confidence item) (confidence best) then item else best)
    rest first.

Definition get_highest_confidence_detection (detections : list Detection)
    : option Detection :=
  match detections with
  | [] => None
  | first :: rest => Some (max_by_confidence first rest)
  end.

Definition get_detection_summary (detections : list Detection) : gmap string Z :=
  fold_left
    (λ summary det,
       let species := class_name det in
       match summary !! species with
       | Some n => <[species := n + 1]> summary
       | None => <[species := 1]> summary
       end)
    detections ∅.

Definition filter_detections_by_species (detections : list Detection)
    (species_list : list string) : list Detection :=
  filter (λ det, class_name det ∈ species_list) detections.

(** ** utils/verification.py *)

(** A file of the snapshot directory: a JPEG that [cv2.imread] decodes to
    [img], or bytes that it cannot decode. *)
Inductive file (Image : Type) : Type :=
  | Jpeg (img : Image)
  | Damaged.
Arguments Jpeg {Image} img.
Arguments Damaged {Image}.

(** What one call of [cv2.imwrite] does. *)
Inductive imwrite_result : Type :=
  | Written                        (* the encoded image is on disk *)
  | WrittenDamaged                 (* a file is on disk, it cannot be decoded *)
  | Refused                        (* nothing written, [False] returned *)
  | ImwriteRaised (e : exception). (* [cv2.error] and the like *)

(** The readings one verification attempt takes from its environment. *)
Record Env : Type := {
  now : string;                 (* datetime.now().strftime("%Y%m%d_%H%M%S_%f") *)
  imwrite_does : imwrite_result
}.

Record BestDetection : Type := {
  species : string;
  confidence_layer1 : float;
  confidence_layer2 : float;
  bbox_layer1 : Z * Z * Z * Z;
  bbox_layer2 : Z * Z * Z * Z
}.

Record VerificationResult : Type := {
  layer1_detections : list Detection;
  layer2_detections : list Detection;
  verified : bool;
  snapshot_path : option string;
  best_detection : option BestDetection;
  rejection_reason : option string
}.

(** [s[:-3]] *)
Definition drop_last3 (s : string) : string :=
  String.substring 0 (String.length s - 3)%nat s.

(** [d['key']] where [d] may be [None] *)
Definition subscript {A : Type} (d : option A) : outcome A :=
  match d with
  | Some a => Returned a
  | None => Raised TypeError
  end.

(** [not snapshot_path]: [None] and the empty string are false *)
Definition truthy_str (o : option string) : option string :=
  match o with
  | Some (String c s) => Some (String c s)
  | _ => None
  end.

Section Verifier.

Context {Image : Type}.
(** What [cv2.imread] decodes from a file [cv2.imwrite] has encoded. *)
Context (jpeg : Image → Image).
(** The cached result of [load_model()]. *)
Context (model : option (YOLO Image)).

Abbreviation Disk := (gmap string (file Image)).

Definition cv2_imwrite (env : Env) (filepath : string) (image : Image)
    (disk : Disk) : outcome Disk :=
  match imwrite_does env with
  | Written => Returned (<[filepath := Jpeg (jpeg image)]> disk)
  | WrittenDamaged => Returned (<[filepath := Damaged]> disk)
  | Refused => Returned disk
  | ImwriteRaised e => Raised e
  end.

Definition cv2_imread (filepath : string) (disk : Disk) : option Image :=
  match disk !! filepath with
  | Some (Jpeg img) => Some img
  | _ => None
  end.

Definition path_exists (filepath : string) (disk : Disk) : bool :=
  bool_decide (is_Some (disk !! filepath)).

Definition path_unlink (filepath : string) (disk : Disk) : outcome Disk :=
  match disk !! filepath with
  | Some _ => Returned (delete filepath disk)
  | None => Raised FileNotFoundError
  end.

Definition save_snapshot (env : Env) (image : Image) (detection : option Detection)
    (source : string) (disk : Disk) : option string * Disk :=
  try_except
    (let timestamp := drop_last3 (now env) in
     det ← subscript detection;
     let species := class_name det in
     confidence ← py_int (fmul (confidence det) (float_of_Z 100));
     let filename :=
       timestamp +:+ "_" +:+ species +:+ "_" +:+ pretty confidence
                 +:+ "_" +:+ source +:+ ".jpg" in
     let filepath := SNAPSHOT_DIR +:+ filename in
     disk' ← cv2_imwrite env filepath image disk;
     mret (Some filepath, disk'))
    (λ _, (None, disk)).

Definition delete_snapshot (filepath : string) (disk : Disk) : bool * Disk :=
  try_except
    (if path_exists filepath disk
     then disk' ← path_unlink filepath disk; mret (true, disk')
     else mret (false, disk))
    (λ _, (false, disk)).

Definition rejected (layer1 layer2 : list Detection) (reason : string)
    : VerificationResult :=
  {| layer1_detections := layer1;
     layer2_detections := layer2;
     verified := false;
     snapshot_path := None;
     best_detection := None;
     rejection_reason := Some reason |}.

Definition verify_detection_2layer (env : Env) (image : Image) (disk : Disk)
    : outcome (VerificationResult * Disk) :=
  (* LAYER 1 *)
  let layer1_detections := detect_objects model image LAYER1_CONFIDENCE in
  match layer1_detections with
  | [] => mret (rejected [] [] "No Layer 1 detection", disk)
  | _ :: _ =>
  let best_layer1 := get_highest_confidence_detection layer1_detections in
  (* SNAPSHOT CAPTURE *)
  let '(snapshot_path, disk) :=
    save_snapshot env image best_layer1 "verification" disk in
  match truthy_str snapshot_path with
  | None => mret (rejected layer1_detections [] "Snapshot save failed", disk)
  | Some snapshot_path =>
  (* LAYER 2 *)
  match cv2_imread snapshot_path disk with
  | None =>
      let '(_, disk) := delete_snapshot snapshot_path disk in
      mret (rejected layer1_detections [] "Snapshot read failed", disk)
  | Some snapshot_image =>
  let layer2_detections := detect_objects model snapshot_image LAYER2_CONFIDENCE in
  match layer2_detections with
  | [] =>
      let '(_, disk) := delete_snapshot snapshot_path disk in
      mret (rejected layer1_detections [] "No Layer 2 detection", disk)
  | _ :: _ =>
  let best_layer2 := get_highest_confidence_detection layer2_detections in
  b1 ← subscript best_layer1;
  b2 ← subscript best_layer2;
  if bool_decide (class_name b1 ≠ class_name b2) then
    let '(_, disk) := delete_snapshot snapshot_path disk in
    mret (rejected layer1_detections layer2_detections
            ("Species mismatch: L1=" +:+ class_name b1
               +:+ ", L2=" +:+ class_name b2),
          disk)
  else
    mret ({| layer1_detections := layer1_detections;
             layer2_detections := layer2_detections;
             verified := true;
             snapshot_path := Some snapshot_path;
             best_detection :=
               Some {| species := class_name b2;
                       confidence_layer1 := confidence b1;
                       confidence_layer2 := confidence b2;
                       bbox_layer1 := bbox b1;
                       bbox_layer2 := bbox b2 |};
             rejection_reason := None |},
          disk)
  end end end end.

Definition should_trigger_snapshot (detections : list Detection) : outcome bool :=
  match detections with
  | [] => mret false
  | _ :: _ =>
      best ← subscript (get_highest_confidence_detection detections);
      mret (fge (confidence best) AUTO_SNAPSHOT_THRESHOLD)
  end.

End Verifier.

(** ** utils/video_processor.py *)

(** A frame: [frame.shape[:2]] is (rows, columns). *)
Record Frame (Pixels : Type) : Type := {
  shape : Z * Z;
  pixels : Pixels
}.
Arguments shape {Pixels} _.
Arguments pixels {Pixels} _.

(** A [cv2.VideoCapture] handle: whether it is open, the properties it was
    asked for, and what the device delivers to the coming reads ([None] is
    a read that fails). *)
Record VideoCapture (Pixels : Type) : Type := {
  opened : bool;
  props : list (string * Z);
  pending : list (option (Frame Pixels))
}.
Arguments opened {Pixels} _.
Arguments props {Pixels} _.
Arguments pending {Pixels} _.

Record WebcamProcessor (Pixels : Type) : Type := {
  camera_index : Z + string;
  cap : option (VideoCapture Pixels);
  running : bool;
  fps : float;
  last_time : float;
  frame_count : Z;
  wp_model : option (YOLO (Frame Pixels))
}.
Arguments camera_index {Pixels} _.
Arguments cap {Pixels} _.
Arguments running {Pixels} _.
Arguments fps {Pixels} _.
Arguments last_time {Pixels} _.
Arguments frame_count {Pixels} _.
Arguments wp_model {Pixels} _.

(** [a / b] on floats *)
Definition py_truediv (a b : float) : outcome float :=
  match b with
  | S754_zero _ => Raised ZeroDivisionError
  | _ => Returned (fdiv a b)
  end.

Section FrameSource.

Context {Pixels : Type}.
(** The interpolation of [cv2.resize(frame, (width, height))]. *)
Context (resample : Pixels → Z → Z → Pixels).

Definition cv2_resize (frame : Frame Pixels) (dsize : Z * Z) : Frame Pixels :=
  let '(width, height) := dsize in
  {| shape := (height, width); pixels := resample (pixels frame) width height |}.

Definition cap_isOpened (c : VideoCapture Pixels) : bool := opened c.

Definition cap_set (c : VideoCapture Pixels) (prop : string) (value : Z)
    : VideoCapture Pixels :=
  {| opened := opened c; props := props c ++ [(prop, value)]; pending := pending c |}.

(** [cap.read()]: [Some frame] stands for [(True, frame)], [None] for
    [(False, None)]. *)
Definition cap_read (c : VideoCapture Pixels)
    : option (Frame Pixels) * VideoCapture Pixels :=
  if opened c then
    match pending c with
    | [] => (None, c)
    | r :: rest => (r, {| opened := true; props := props c; pending := rest |})
    end
  else (None, c).

(** [__init__]: [t] is [time.time()], [m] is [load_model()]. *)
Definition WebcamProcessor_init (camera_index : Z + string) (t : float)
    (m : option (YOLO (Frame Pixels))) : WebcamProcessor Pixels :=
  {| camera_index := camera_index;
     cap := None;
     running := false;
     fps := float_of_Z 0;
     last_time := t;
     frame_count := 0;
     wp_model := m |}.

(** [start]: [device] is what [cv2.VideoCapture(self.camera_index)] does,
    [t] is [time.time()]. *)
Definition start (device : outcome (VideoCapture Pixels)) (t : float)
    (self : WebcamProcessor Pixels) : bool * WebcamProcessor Pixels :=
  try_except
    (c ← device;
     if negb (cap_isOpened c) then
       mret (false,
             {| camera_index := camera_index self; cap := Some c;
                running := running self; fps := fps self;
                last_time := last_time self; frame_count := frame_count self;
                wp_model := wp_model self |})
     else
       let c :=
         match camera_index self with
         | inl _ =>
             cap_set (cap_set (cap_set c "CAP_PROP_FRAME_WIDTH" WEBCAM_WIDTH)
                        "CAP_PROP_FRAME_HEIGHT" WEBCAM_HEIGHT)
               "CAP_PROP_FPS" WEBCAM_FPS
         | inr _ => c
         end in
       mret (true,
             {| camera_index := camera_index self; cap := Some c;
                running := true; fps := fps self;
                last_time := t; frame_count := frame_count self;
                wp_model := wp_model self |}))
    (λ _, (false, self)).

Definition stop (self : WebcamProcessor Pixels) : WebcamProcessor Pixels :=
  {| camera_index := camera_index self; cap := None;
     running := false; fps := fps self;
     last_time := last_time self; frame_count := frame_count self;
     wp_model := wp_model self |}.

Definition is_running (self : WebcamProcessor Pixels) : bool :=
  running self &&
  match cap self with
  | Some c => cap_isOpened c
  | None => false
  end.

(** [read_frame]: [t] is what [time.time()] reads if it is called. *)
Definition read_frame (t : float) (self : WebcamProcessor Pixels)
    : outcome ((bool * option (Frame Pixels)) * WebcamProcessor Pixels) :=
  if negb (is_running self) then mret ((false, None), self)
  else
    c ← match cap self with Some c => Returned c | None => Raised AttributeError end;
    let '(r, c) := cap_read c in
    match r with
    | None =>
        mret ((false, None),
              {| camera_index := camera_index self; cap := Some c;
                 running := running self; fps := fps self;
                 last_time := last_time self; frame_count := frame_count self;
                 wp_model := wp_model self |})
    | Some frame =>
        let frame :=
          match camera_index self with
          | inr _ =>
              let target_width := WEBCAM_WIDTH in
              let target_height := WEBCAM_HEIGHT in
              let '(h, w) := shape frame in
              if (target_width <? w) || (target_height <? h)
              then cv2_resize frame (target_width, target_height)
              else frame
          | inl _ => frame
          end in
        let frame_count := frame_count self + 1 in
        if frame_count mod 10 =? 0 then
          let current_time := t in
          fps ← py_truediv (float_of_Z 10) (fsub current_time (last_time self));
          mret ((true, Some frame),
                {| camera_index := camera_index self; cap := Some c;
                   running := running self; fps := fps;
                   last_time := current_time; frame_count := frame_count;
                   wp_model := wp_model self |})
        else
          mret ((true, Some frame),
                {| camera_index := camera_index self; cap := Some c;
                   running := running self; fps := fps self;
                   last_time := last_time self; frame_count := frame_count;
                   wp_model := wp_model self |})
    end.

Definition get_fps (self : WebcamProcessor Pixels) : float := fps self.

End FrameSource.

(** ** Notions used by the statements *)

(** [d] sits at position [i] of [D], no element of [D] has a greater
    confidence, and every element before position [i] has a strictly
    smaller one. *)
Definition first_maximal (D : list Detection) (i : nat) (d : Detection) : Prop :=
  D !! i = Some d ∧
  (∀ d', d' ∈ D → fge (confidence d) (confidence d') = true) ∧
  (∀ j d', (j < i)%nat → D !! j = Some d' →
           fgt (confidence d) (confidence d') = true).

(** The reason [reason] contains the name [name]. *)
Definition mentions (name reason : string) : Prop :=
  ∃ before after, reason = before +:+ name +:+ after.

(** Lower-casing of ASCII letters, to compare a reason with its name in
    the error taxonomy. *)
Definition lower_ascii (c : Ascii.ascii) : Ascii.ascii :=
  let n := Ascii.nat_of_ascii c in
  if (65 <=? n)%nat && (n <=? 90)%nat then Ascii.ascii_of_nat (n + 32) else c.

Fixpoint lower (s : string) : string :=
  match s with
  | EmptyString => EmptyString
  | String c s => String (lower_ascii c) (lower s)
  end.

Section Sessions.

Context {Image : Type}.
Context (jpeg : Image → Image).
Context (model : option (YOLO Image)).

(** The path [save_snapshot] gives to a verification attempt, if the
    attempt gets that far. *)
Definition snapshot_saved (env : Env) (image : Image)
    (disk : gmap string (file Image)) : option string :=
  match detect_objects model image LAYER1_CONFIDENCE with
  | [] => None
  | l =>
      truthy_str
        (fst (save_snapshot jpeg env image (get_highest_confidence_detection l)
                "verification" disk))
  end.

(** A session: the results handed to the caller so far, the paths the
    verifier has saved snapshots to, and the disk. *)
Record Session : Type := {
  results : list VerificationResult;
  created : list string;
  disk_now : gmap string (file Image)
}.

Definition session_start (disk : gmap string (file Image)) : Session :=
  {| results := []; created := []; disk_now := disk |}.

Fixpoint session_run (calls : list (Env * Image)) (s : Session) : outcome Session :=
  match calls with
  | [] => mret s
  | (env, image) :: rest =>
      '(r, disk) ← verify_detection_2layer jpeg model env image (disk_now s);
      session_run rest
        {| results := results s ++ [r];
           created := created s ++
                      option_list (snapshot_saved env image (disk_now s));
           disk_now := disk |}
  end.

(** Every attempt of the session gets a snapshot name that is not on disk
    when the attempt starts. *)
Fixpoint fresh_names (calls : list (Env * Image))
    (disk : gmap string (file Image)) : bool :=
  match calls with
  | [] => true
  | (env, image) :: rest =>
      match snapshot_saved env image disk with
      | Some p => negb (path_exists p disk)
      | None => true
      end &&
      match verify_detection_2layer jpeg model env image disk with
      | Returned (_, disk') => fresh_names rest disk'
      | Raised _ => true
      end
  end.

(** The result record of an accepted verification. *)
Definition accepted (layer1 layer2 : list Detection) (p : string)
    (b1 b2 : Detection) : VerificationResult :=
  {| layer1_detections := layer1;
     layer2_detections := layer2;
     verified := true;
     snapshot_path := Some p;
     best_detection :=
       Some {| species := class_name b2;
               confidence_layer1 := confidence b1;
               confidence_layer2 := confidence b2;
               bbox_layer1 := bbox b1;
               bbox_layer2 := bbox b2 |};
     rejection_reason := None |}.

(** The six ways through [verify_detection_2layer]. *)
Inductive verify_path (env : Env) (image : Image) (disk : gmap string (file Image))
    : VerificationResult → gmap string (file Image) → Prop :=
  | path_no_layer1 :
      detect_objects model image LAYER1_CONFIDENCE = [] →
      verify_path env image disk (rejected [] [] "No Layer 1 detection") disk
  | path_save_failed l1 b1 sp disk1 :
      detect_objects model image LAYER1_CONFIDENCE = l1 →
      get_highest_confidence_detection l1 = Some b1 →
      save_snapshot jpeg env image (Some b1) "verification" disk = (sp, disk1) →
      truthy_str sp = None →
      verify_path env image disk (rejected l1 [] "Snapshot save failed") disk1
  | path_read_failed l1 b1 p disk1 :
      detect_objects model image LAYER1_CONFIDENCE = l1 →
      get_highest_confidence_detection l1 = Some b1 →
      save_snapshot jpeg env image (Some b1) "verification" disk = (Some p, disk1) →
      p ≠ EmptyString →
      cv2_imread p disk1 = None →
      verify_path env image disk (rejected l1 [] "Snapshot read failed")
        (delete_snapshot p disk1).2
  | path_no_layer2 l1 b1 p disk1 img2 :
      detect_objects model image LAYER1_CONFIDENCE = l1 →
      get_highest_confidence_detection l1 = Some b1 →
      save_snapshot jpeg env image (Some b1) "verification" disk = (Some p, disk1) →
      p ≠ EmptyString →
      cv2_imread p disk1 = Some img2 →
      detect_objects model img2 LAYER2_CONFIDENCE = [] →
      verify_path env image disk (rejected l1 [] "No Layer 2 detection")
        (delete_snapshot p disk1).2
  | path_mismatch l1 b1 p disk1 img2 l2 b2 :
      detect_objects model image LAYER1_CONFIDENCE = l1 →
      get_highest_confidence_detection l1 = Some b1 →
      save_snapshot jpeg env image (Some b1) "verification" disk = (Some p, disk1) →
      p ≠ EmptyString →
      cv2_imread p disk1 = Some img2 →
      detect_objects model img2 LAYER2_CONFIDENCE = l2 →
      get_highest_confidence_detection l2 = Some b2 →
      class_name b1 ≠ class_name b2 →
      verify_path env image disk
        (rejected l1 l2
           ("Species mismatch: L1=" +:+ class_name b1 +:+ ", L2=" +:+ class_name b2))
        (delete_snapshot p disk1).2
  | path_verified l1 b1 p disk1 img2 l2 b2 :
      detect_objects model image LAYER1_CONFIDENCE = l1 →
      get_highest_confidence_detection l1 = Some b1 →
      save_snapshot jpeg env image (Some b1) "verification" disk = (Some p, disk1) →
      p ≠ EmptyString →
      cv2_imread p disk1 = Some img2 →
      detect_objects model img2 LAYER2_CONFIDENCE = l2 →
      get_highest_confidence_detection l2 = Some b2 →
      class_name b1 = class_name b2 →
      verify_path env image disk (accepted l1 l2 p b1 b2) disk1.

(** Every snapshot of the session that is on disk is one an accepted
    result refers to. *)
Definition snapshots_referenced (s : Session) : Prop :=
  ∀ p, p ∈ created s → is_Some (disk_now s !! p) →
       ∃ r, r ∈ results s ∧ verified r = true ∧ snapshot_path r = Some p.

(** Every accepted result refers to a snapshot of the session that is on
    disk. *)
Definition references_kept (s : Session) : Prop :=
  ∀ r p, r ∈ results s → verified r = true → snapshot_path r = Some p →
         p ∈ created s ∧ is_Some (disk_now s !! p).

End Sessions.

(** ** Three properties of the specification, as statements *)

(** A caller of [detect_objects] can tell an inference error from an
    inference without detections. *)
Definition inference_errors_distinguishable : Prop :=
  ∀ (Image : Type) (failing quiet : YOLO Image) (image : Image) (c : float)
    (e : exception),
    predict failing image c = Raised e →
    predict quiet image c = Returned [] →
    detect_objects (Some failing) image c ≠ detect_objects (Some quiet) image c.

(** Any two frames that [read_frame] returns have the same dimensions. *)
Definition frames_dimension_invariant {Pixels : Type}
    (resample : Pixels → Z → Z → Pixels) : Prop :=
  ∀ (t1 t2 : float) (s1 s2 s1' s2' : WebcamProcessor Pixels)
    (f1 f2 : Frame Pixels),
    read_frame resample t1 s1 = Returned ((true, Some f1), s1') →
    read_frame resample t2 s2 = Returned ((true, Some f2), s2') →
    shape f1 = shape f2.

(** Between verification attempts, a snapshot that the verifier has created
    is on disk if and only if an accepted result refers to it. *)
Definition snapshots_on_disk_exactly_verified : Prop :=
  ∀ (Image : Type) (jpeg : Image → Image) (model : option (YOLO Image))
    (calls : list (Env * Image)) (disk : gmap string (file Image))
    (s : Session),
    session_run jpeg model calls (session_start disk) = Returned s →
    ∀ p, p ∈ created s →
         (is_Some (disk_now s !! p) ↔
          ∃ r, r ∈ results s ∧ verified r = true ∧ snapshot_path r = Some p).

(** ** Sample data *)

(** [n / 100] *)
Definition percent (n : Z) : float := fdiv (float_of_Z n) (float_of_Z 100).

Definition sample_box (class : Z) (confidence_percent : Z) : Box :=
  {| cls := float_of_Z class;
     conf := percent confidence_percent;
     xyxy := (float_of_Z 10, float_of_Z 20, float_of_Z 110, float_of_Z 220) |}.

(** Images are numbered; the snapshot of image [n] reads back as [n + 100]. *)
Definition sample_jpeg (n : nat) : nat := (n + 100)%nat.

(** What the sample model sees, before the confidence threshold:
    nothing on image 0; a tiger at 0.6 on image 1 and a bear at 0.5 on its
    snapshot; an elephant at 0.55 on image 2 and at 0.42 on its snapshot. *)
Definition sample_scene (image : nat) : list Box :=
  match image with
  | 1%nat => [sample_box 3 60]
  | 101%nat => [sample_box 0 50]
  | 2%nat => [sample_box 1 55]
  | 102%nat => [sample_box 1 42]
  | _ => []
  end.

Definition sample_model : YOLO nat :=
  {| predict := λ image c,
       Returned [filter (λ b, fge (conf b) c = true) (sample_scene image)] |}.

(** A model whose inference raises, and one that finds nothing. *)
Definition failing_model : YOLO nat :=
  {| predict := λ _ _, Raised (OtherException "cv2.error") |}.

Definition quiet_model : YOLO nat :=
  {| predict := λ _ _, Returned [] |}.

Definition sample_env : Env :=
  {| now := "20240101_120000_123456"; imwrite_does := Written |}.

Definition later_env : Env :=
  {| now := "20240101_120005_654321"; imwrite_does := Written |}.

(** The clock read again in the millisecond of [sample_env]. *)
Definition same_ms_env : Env :=
  {| now := "20240101_120000_123789"; imwrite_does := Written |}.

(** The sample model with one more image: a second elephant at 0.55 on
    image 3, of which the snapshot shows nothing. *)
Definition second_elephant_model : YOLO nat :=
  {| predict := λ image c,
       Returned [filter (λ b, fge (conf b) c = true)
                   match image with
                   | 3%nat => [sample_box 1 55]
                   | _ => sample_scene image
                   end] |}.

Definition tiger_snapshot : string :=
  "snapshots/20240101_120000_123_Tiger_60_verification.jpg".

Definition elephant_snapshot : string :=
  "snapshots/20240101_120000_123_Elephant_55_verification.jpg".

Definition sample_detection (name : string) (class : Z) (confidence_percent : Z)
    : Detection :=
  {| class_id := class;
     class_name := name;
     confidence := percent confidence_percent;
     bbox := (10, 20, 110, 220) |}.

Definition sample_frame (rows cols : Z) : Frame nat :=
  {| shape := (rows, cols); pixels := 0%nat |}.

Definition sample_resample (p : nat) (width height : Z) : nat := S p.

Definition sample_capture (frames : list (option (Frame nat))) : VideoCapture nat :=
  {| opened := true; props := []; pending := frames |}.

Definition closed_capture : VideoCapture nat :=
  {| opened := false; props := []; pending := [] |}.

Definition stream_source (frames : list (option (Frame nat))) : WebcamProcessor nat :=
  (start (Returned (sample_capture frames)) (float_of_Z 1000)
     (WebcamProcessor_init (inr "http://192.168.1.5:8080/video") (float_of_Z 999)
        None)).2.

(** ** Further notions *)

(** A float that [int()] accepts: neither NaN nor an infinity. *)
Definition finite (x : float) : bool :=
  match x with
  | S754_nan | S754_infinity _ => false
  | _ => true
  end.

(** A box whose class and four coordinates [int()] accepts. *)
Definition box_finite (b : Box) : bool :=
  let '(x1, y1, x2, y2) := xyxy b in
  finite (cls b) && finite x1 && finite y1 && finite x2 && finite y2.

(** How many detections of [D] are of the species [s]. *)
Definition count_species (s : string) (D : list Detection) : nat :=
  length (filter (λ d, class_name d = s) D).

(** The sum of the counts of a summary. *)
Definition summary_total (summary : gmap string Z) : Z :=
  map_fold (λ _ n acc, n + acc) 0 summary.

(** The name of a snapshot: directory, timestamp to the millisecond,
    species, integer percentage, source tag. *)
Definition snapshot_name (timestamp species : string) (percentage : Z)
    (source : string) : string :=
  SNAPSHOT_DIR +:+ timestamp +:+ "_" +:+ species +:+ "_" +:+ pretty percentage
               +:+ "_" +:+ source +:+ ".jpg".

Section CaptureLoop.

Context {Pixels : Type}.
Context (resample : Pixels → Z → Z → Pixels).

(** The reads of the video loop of the webcam page, [while
    processor.is_running(): success, frame = processor.read_frame(); if not
    success: break], with the clock reading of each turn: the frames read
    until the first read that fails or the end of the readings. *)
Fixpoint read_frames (ts : list float) (self : WebcamProcessor Pixels)
    : outcome (list (Frame Pixels) * WebcamProcessor Pixels) :=
  match ts with
  | [] => mret ([], self)
  | t :: ts =>
      if negb (is_running self) then mret ([], self)
      else
        '(r, self) ← read_frame resample t self;
        match r with
        | (true, Some frame) =>
            '(frames, self) ← read_frames ts self;
            mret (frame :: frames, self)
        | _ => mret ([], self)
        end
  end.

End CaptureLoop.

(** ** Drawing and [process_frame] *)

Definition CLASS_COLORS : gmap string (Z * Z * Z) :=
  <["Bear" := (139, 69, 19)]>
    (<["Elephant" := (128, 128, 128)]>
       (<["Leopard" := (255, 165, 0)]> (<["Tiger" := (255, 140, 0)]> ∅))).

Section Drawing.

Context {Pixels : Type}.
(** What [cv2.rectangle] and [cv2.putText] do to the pixels, in place; the
    font, its scale 0.7 and its thickness 2 are fixed.  [getTextSize] is
    [cv2.getTextSize] for that font: ((width, height), baseline). *)
Context (rectangle : Pixels → Z * Z → Z * Z → Z * Z * Z → Z → Pixels).
Context (putText : Pixels → string → Z * Z → Z * Z * Z → Pixels).
Context (getTextSize : string → (Z * Z) * Z).
(** [f"{confidence:.1%}"] *)
Context (format_percent : float → string).
(** The cached result of [load_model()]. *)
Context (model : option (YOLO (Frame Pixels))).

Definition cv2_rectangle (img : Frame Pixels) (pt1 pt2 : Z * Z)
    (color : Z * Z * Z) (thickness : Z) : Frame Pixels :=
  {| shape := shape img;
     pixels := rectangle (pixels img) pt1 pt2 color thickness |}.

Definition cv2_putText (img : Frame Pixels) (text : string) (org : Z * Z)
    (color : Z * Z * Z) : Frame Pixels :=
  {| shape := shape img; pixels := putText (pixels img) text org color |}.

Definition draw_boxes (image : Frame Pixels) (detections : list Detection)
    (show_confidence : bool) : Frame Pixels :=
  let output_image := image in
  fold_left
    (λ output_image det,
       let class_name := class_name det in
       let confidence := confidence det in
       let '(x1, y1, x2, y2) := bbox det in
       let color := default (0, 255, 0) (CLASS_COLORS !! class_name) in
       let thickness := 3 in
       let output_image :=
         cv2_rectangle output_image (x1, y1) (x2, y2) color thickness in
       let label :=
         if show_confidence
         then class_name +:+ " " +:+ format_percent confidence
         else class_name in
       let '((text_width, text_height), baseline) := getTextSize label in
       let output_image :=
         cv2_rectangle output_image (x1, y1 - text_height - 10)
           (x1 + text_width + 10, y1) color (-1) in
       cv2_putText output_image label (x1 + 5, y1 - 5) (255, 255, 255))
    detections output_image.

Definition process_frame (self : WebcamProcessor Pixels) (frame : Frame Pixels)
    (enable_detection : bool) (conf_threshold : float)
    : Frame Pixels * list Detection :=
  if negb enable_detection || bool_decide (wp_model self = None)
  then (frame, [])
  else
    try_except
      (let detections := detect_objects model frame conf_threshold in
       let processed_frame := draw_boxes frame detections true in
       mret (processed_frame, detections))
      (λ _, (frame, [])).

End Drawing.

(** ** ui/webcam_page.py and ui/upload_page.py: what is saved of a result *)

(** A Python [dict] from species to detection, in insertion order:
    [d[k] = v] replaces the value of a key in place and appends a new key. *)
Fixpoint dict_set (k : string) (v : Detection) (d : list (string * Detection))
    : list (string * Detection) :=
  match d with
  | [] => [(k, v)]
  | (k', v') :: d' =>
      if decide (k' = k) then (k, v) :: d' else (k', v') :: dict_set k v d'
  end.

Fixpoint dict_get (k : string) (d : list (string * Detection)) : option Detection :=
  match d with
  | [] => None
  | (k', v') :: d' => if decide (k' = k) then Some v' else dict_get k d'
  end.

(** The loop [for det in result['layer2_detections']: ...] that fills
    [detected_species]. *)
Definition detected_species (layer2_detections : list Detection)
    : list (string * Detection) :=
  fold_left
    (λ detected_species det,
       let species := class_name det in
       match dict_get species detected_species with
       | None => dict_set species det detected_species
       | Some current =>
           if fgt (confidence det) (confidence current)
           then dict_set species det detected_species
           else detected_species
       end)
    layer2_detections [].

(** [next((d['confidence'] for d in result['layer1_detections']
          if d['class_name'] == species), det['confidence'])] *)
Definition layer1_conf (layer1_detections : list Detection) (species : string)
    (det : Detection) : float :=
  match filter (λ d, class_name d = species) layer1_detections with
  | d :: _ => confidence d
  | [] => confidence det
  end.

(** ** ui/webcam_page.py: when the video loop attempts a verification *)

Definition PROCESS_EVERY_N_FRAMES : Z := 2.
Definition SNAPSHOT_COOLDOWN : float := float_of_Z 5.

(** What the loop keeps from turn to turn: [frame_skip_counter] and
    [st.session_state['last_snapshot_time']]. *)
Record VideoLoop : Type := {
  frame_skip_counter : Z;
  last_snapshot_time : float
}.

(** One turn of the loop, after a frame has been read: [detections] is what
    [process_frame] returns for the frame if it is processed, [current_time]
    what [time.time()] reads if it is called.  The answer tells whether
    [verify_detection_2layer] is called in this turn. *)
Definition loop_turn (camera_index : Z + string) (enable_detection : bool)
    (detections : list Detection) (current_time : float) (st : VideoLoop)
    : outcome (bool * VideoLoop) :=
  let frame_skip_counter := frame_skip_counter st + 1 in
  let should_process := frame_skip_counter mod PROCESS_EVERY_N_FRAMES =? 0 in
  let skip :=
    (false, {| frame_skip_counter := frame_skip_counter;
               last_snapshot_time := last_snapshot_time st |}) in
  if enable_detection && should_process then
    match detections with
    | [] => mret skip
    | _ :: _ =>
        trigger ← should_trigger_snapshot detections;
        if trigger : bool then
          let time_since_last := fsub current_time (last_snapshot_time st) in
          let is_ip_webcam :=
            match camera_index with inr _ => true | inl _ => false end in
          let can_snapshot :=
            negb is_ip_webcam || fge time_since_last SNAPSHOT_COOLDOWN in
          if can_snapshot
          then mret (true, {| frame_skip_counter := frame_skip_counter;
                              last_snapshot_time := current_time |})
          else mret skip
        else mret skip
    end
  else mret skip.

(** The turns of the loop: the clock readings of the turns in which a
    verification is attempted, in order. *)
Fixpoint loop_turns (camera_index : Z + string) (enable_detection : bool)
    (turns : list (list Detection * float)) (st : VideoLoop)
    : outcome (list float * VideoLoop) :=
  match turns with
  | [] => mret ([], st)
  | (detections, current_time) :: turns =>
      '(attempt, st) ←
        loop_turn camera_index enable_detection detections current_time st;
      '(attempts, st) ← loop_turns camera_index enable_detection turns st;
      mret (if attempt : bool then current_time :: attempts else attempts, st)
  end.

(** Each attempt comes at least the cool-down after the one before, the
    first after [previous]. *)
Fixpoint spaced (previous : float) (attempts : list float) : Prop :=
  match attempts with
  | [] => True
  | t :: attempts =>
      fge (fsub t previous) SNAPSHOT_COOLDOWN = true ∧ spaced t attempts
  end.

(** ** alerts/email_service.py: the cool-down of alerts *)

Definition ALERT_COOLDOWN_SECONDS : Z := 5.

(** A document of the alerts collection; times are in microseconds, and a
    time that the collection holds is a whole number of milliseconds. *)
Record AlertRecord : Type := {
  alert_species : string;
  alert_user_id : string;
  last_alert_time : option Z
}.

(** [timedelta(seconds=n)] *)
Definition timedelta_seconds (n : Z) : Z := n * 1000000.

(** A [datetime] as the collection keeps it: a BSON date counts
    milliseconds, and the driver encodes a [datetime] with
    [microsecond // 1000], so the microseconds below the millisecond are
    cut off. *)
Definition bson_datetime (t : Z) : Z := t / 1000 * 1000.

Definition alert_matches (species user_id : string) (r : AlertRecord) : Prop :=
  alert_species r = species ∧ alert_user_id r = user_id.

#[global] Instance alert_matches_dec species user_id r :
  Decision (alert_matches species user_id r).
Proof. unfold alert_matches. apply _. Defined.

(** [collection.find_one({"species": species, "user_id": user_id})] *)
Definition find_one (species user_id : string) (collection : list AlertRecord)
    : option AlertRecord :=
  head (filter (alert_matches species user_id) collection).

(** [collection.update_one(filter, {"$set": {"last_alert_time": now}},
    upsert=True)]: the first document that matches is updated; when none
    matches, one is inserted.  The time is kept as a BSON date. *)
Fixpoint update_one_upsert (species user_id : string) (now : Z)
    (collection : list AlertRecord) : list AlertRecord :=
  match collection with
  | [] => [{| alert_species := species; alert_user_id := user_id;
              last_alert_time := Some (bson_datetime now) |}]
  | r :: collection =>
      if decide (alert_matches species user_id r)
      then {| alert_species := alert_species r;
              alert_user_id := alert_user_id r;
              last_alert_time := Some (bson_datetime now) |} :: collection
      else r :: update_one_upsert species user_id now collection
  end.

(** [alerts_collection] is what [get_collection] gives, [None] without a
    database; [fault] is the error that the query raises, if it does; [now]
    is [datetime.now()]. *)
Definition check_alert_cooldown (alerts_collection : option (list AlertRecord))
    (fault : option exception) (species user_id : string) (now : Z) : bool :=
  match alerts_collection with
  | None => true
  | Some collection =>
      try_except
        (alert_record ←
           match fault with
           | Some e => Raised e
           | None => Returned (find_one species user_id collection)
           end;
         match alert_record with
         | None => mret true
         | Some alert_record =>
             match last_alert_time alert_record with
             | None => mret true
             | Some last_alert_time =>
                 let cooldown_period := timedelta_seconds ALERT_COOLDOWN_SECONDS in
                 let time_since_last := now - last_alert_time in
                 mret (cooldown_period <=? time_since_last)
             end
         end)
        (λ _, true)
  end.

(** [update_alert_timestamp]: the collection afterwards. *)
Definition update_alert_timestamp (alerts_collection : option (list AlertRecord))
    (fault : option exception) (species user_id : string) (now : Z)
    : option (list AlertRecord) :=
  match alerts_collection with
  | None => None
  | Some collection =>
      try_except
        (match fault with
         | Some e => Raised e
         | None => Returned (Some (update_one_upsert species user_id now collection))
         end)
        (λ _, Some collection)
  end.

(** ** Further sample data *)

Definition nan_box : Box :=
  {| cls := float_of_Z 3;
     conf := percent 60;
     xyxy := (S754_nan, float_of_Z 20, float_of_Z 110, float_of_Z 220) |}.

(** A model that reports a tiger and a box with a NaN corner. *)
Definition glitch_model : YOLO nat :=
  {| predict := λ _ _, Returned [[sample_box 3 60; nan_box]] |}.

Definition raising_env : Env :=
  {| now := "20240101_120000_123456";
     imwrite_does := ImwriteRaised (OtherException "cv2.error") |}.

Definition damaged_env : Env :=
  {| now := "20240101_120000_123456"; imwrite_does := WrittenDamaged |}.

(** Image 3: a tiger at 0.6, nothing on its snapshot. *)
Definition fading_model : YOLO nat :=
  {| predict := λ image c,
       Returned [match image with 3%nat => [sample_box 3 60] | _ => [] end] |}.

Definition tiger_snapshot_upload : string :=
  "snapshots/20240101_120000_123_Tiger_60_upload.jpg".

Definition sample_rectangle (p : nat) (pt1 pt2 : Z * Z) (color : Z * Z * Z)
    (thickness : Z) : nat := S p.

Definition sample_putText (p : nat) (text : string) (org : Z * Z)
    (color : Z * Z * Z) : nat := S p.

Definition sample_getTextSize (label : string) : (Z * Z) * Z :=
  ((Z.of_nat (String.length label) * 14, 16), 6).

Definition sample_format_percent (c : float) : string := "60.0%".

Definition frame_model : YOLO (Frame nat) :=
  {| predict := λ frame c,
       Returned [if decide (shape frame = (480, 640))
                 then [sample_box 3 60] else []] |}.

(** A device source started at second 1000 whose handle has the frames
    [frames] to deliver. *)
Definition device_source (frames : list (option (Frame nat))) : WebcamProcessor nat :=
  (start (Returned (sample_capture frames)) (float_of_Z 1000)
     (WebcamProcessor_init (inl 0) (float_of_Z 999) (Some frame_model))).2.

Definition ten_frames : list (Frame nat) := replicate 10 (sample_frame 480 640).

Definition nine_readings : list float :=
  replicate 9 (float_of_Z 1001).

Definition sample_alerts : list AlertRecord :=
  [ {| alert_species := "Tiger"; alert_user_id := "u1";
       last_alert_time := Some 1000000 |};
    {| alert_species := "Bear"; alert_user_id := "u1";
       last_alert_time := None |} ].

(** * Properties *)

(** ** The order of confidences *)

Ltac cmp_cases :=
  repeat match goal with
  | |- context [(?a ?= ?b)%Z] => destruct (Z.compare_spec a b)
  | |- context [Pos.compare_cont Eq ?a ?b] =>
      change (Pos.compare_cont Eq a b) with (Pos.compare a b);
      destruct (Pos.compare_spec a b)
  end;
  simpl; try done; try lia.

Lemma fge_total (a b : float) :
  is_nan a = false → is_nan b = false → fgt a b = false → fge b a = true.
Proof.
  unfold fgt, fge, SFltb, SFleb.
  destruct a as [[]|[]| |[] ma ea], b as [[]|[]| |[] mb eb]; simpl; try done;
    intros _ _; cmp_cases.
Qed.

Lemma fge_refl (a : float) : is_nan a = false → fge a a = true.
Proof.
  unfold fge, SFleb.
  destruct a as [[]|[]| |[] ma ea]; simpl; try done; intros _; cmp_cases.
Qed.

Lemma fgt_fge (a b : float) : fgt a b = true → fge a b = true.
Proof.
  unfold fgt, fge, SFltb, SFleb. destruct (SFcompare b a) as [[]|]; done.
Qed.

Lemma fgt_fge_trans (a b c : float) :
  fgt a b = true → fge b c = true → fgt a c = true.
Proof.
  unfold fgt, fge, SFltb, SFleb.
  destruct a as [[]|[]| |[] ma ea], b as [[]|[]| |[] mb eb], c as [[]|[]| |[] mc ec];
    simpl; try done; cmp_cases.
Qed.

(** ** The highest-confidence selector *)

(** The loop of [max]: if [best] is the first maximal element of the items
    seen, the result is the first maximal element of all of them. *)
Lemma max_by_confidence_scan (rest seen : list Detection) (i : nat) (best : Detection) :
  Forall (λ d, is_nan (confidence d) = false) (seen ++ rest) →
  first_maximal seen i best →
  ∃ i' d, first_maximal (seen ++ rest) i' d ∧ max_by_confidence best rest = d.
Proof.
  revert seen i best.
  induction rest as [|item rest IH]; intros seen i best Hnan Hbest.
  - exists i, best. by rewrite app_nil_r.
  - replace (seen ++ item :: rest) with ((seen ++ [item]) ++ rest) in *
      by (by rewrite <- app_assoc).
    destruct Hbest as (Hi & Hmax & Hfirst).
    assert (Hitem : is_nan (confidence item) = false).
    { eapply Forall_forall in Hnan; [exact Hnan|]. set_solver. }
    assert (Hb : is_nan (confidence best) = false).
    { eapply Forall_forall in Hnan; [exact Hnan|].
      apply elem_of_app; left; apply elem_of_app; left.
      eapply list_elem_of_lookup_2; eauto. }
    unfold max_by_confidence; simpl.
    destruct (fgt (confidence item) (confidence best)) eqn:Hgt.
    + apply (IH (seen ++ [item]) (length seen) item Hnan).
      split; [|split].
      * rewrite lookup_app_r by lia. by rewrite Nat.sub_diag.
      * intros d' [Hd'|Hd']%elem_of_app.
        -- apply fgt_fge. eapply fgt_fge_trans; eauto.
        -- apply list_elem_of_singleton in Hd' as ->. by apply fge_refl.
      * intros j d' Hj Hd'. rewrite lookup_app_l in Hd' by done.
        eapply fgt_fge_trans; [exact Hgt|]. apply Hmax.
        eapply list_elem_of_lookup_2; eauto.
    + apply (IH (seen ++ [item]) i best Hnan).
      split; [|split].
      * rewrite lookup_app_l; [done|]. eapply lookup_lt_Some; eauto.
      * intros d' [Hd'|Hd']%elem_of_app; [by apply Hmax|].
        apply list_elem_of_singleton in Hd' as ->. by apply fge_total.
      * intros j d' Hj Hd'. apply (Hfirst j d' Hj).
        rewrite lookup_app_l in Hd'; [done|].
        apply lookup_lt_Some in Hi. lia.
Qed.

(** C1. On the empty list the selector returns [None].  On a list of
    detections whose confidences are numbers (no NaN) it returns the element
    of maximal confidence, and among several of maximal confidence the first
    in the order of the list. *)
Theorem highest_confidence_first_maximal (D : list Detection) :
  Forall (λ d, is_nan (confidence d) = false) D →
  (D = [] → get_highest_confidence_detection D = None) ∧
  (D ≠ [] →
   ∃ i d, get_highest_confidence_detection D = Some d ∧ first_maximal D i d).
Proof.
  intros Hnan. split; [by intros ->|].
  destruct D as [|first rest]; [done|]. intros _.
  destruct (max_by_confidence_scan rest [first] 0 first) as (i & d & Hd & Heq).
  - done.
  - split; [done|]. split.
    + intros d' ->%list_elem_of_singleton. apply fge_refl.
      by inversion Hnan.
    + intros j d' Hj. lia.
  - exists i, d. simpl. by rewrite Heq.
Qed.

(** ** The snapshot store *)

Section VerifierProperties.

Context {Image : Type}.
Context (jpeg : Image → Image).
Context (model : option (YOLO Image)).

Implicit Types disk : gmap string (file Image).

Lemma delete_snapshot_unfold filepath disk :
  delete_snapshot filepath disk =
  match disk !! filepath with
  | Some _ => (true, delete filepath disk)
  | None => (false, disk)
  end.
Proof.
  unfold delete_snapshot, path_exists, path_unlink.
  by destruct (disk !! filepath).
Qed.

Lemma delete_snapshot_absent filepath disk :
  (delete_snapshot filepath disk).2 !! filepath = None.
Proof.
  rewrite delete_snapshot_unfold.
  destruct (disk !! filepath) eqn:E; simpl; [apply lookup_delete_eq|done].
Qed.

Lemma delete_snapshot_other filepath q disk :
  q ≠ filepath → (delete_snapshot filepath disk).2 !! q = disk !! q.
Proof.
  intros Hq. rewrite delete_snapshot_unfold.
  destruct (disk !! filepath) eqn:E; simpl; [by apply lookup_delete_ne|done].
Qed.

(** What [save_snapshot] leaves: no path and the disk as it was, or a path
    and a disk that differs from the old one at that path at most. *)
Lemma save_snapshot_cases env image det source disk :
  let '(sp, disk1) := save_snapshot jpeg env image det source disk in
  match sp with
  | None => disk1 = disk
  | Some p => p ≠ EmptyString ∧ ∀ q, q ≠ p → disk1 !! q = disk !! q
  end.
Proof.
  unfold save_snapshot, cv2_imwrite.
  destruct det as [d|]; simpl; [|done].
  destruct (py_int _) as [n|e]; simpl; [|done].
  destruct (imwrite_does env); simpl; try done;
    (split; [done|]); intros q Hq; by rewrite ?lookup_insert_ne.
Qed.


Lemma highest_of_cons (d : Detection) (l : list Detection) :
  ∃ b, get_highest_confidence_detection (d :: l) = Some b.
Proof. by eexists. Qed.

Lemma truthy_str_Some (o : option string) (p : string) :
  truthy_str o = Some p → o = Some p ∧ p ≠ EmptyString.
Proof. destruct o as [[|c s]|]; simpl; intros [= <-]; done. Qed.

Lemma truthy_str_path (p : string) : p ≠ EmptyString → truthy_str (Some p) = Some p.
Proof. by destruct p. Qed.

(** [verify_detection_2layer] returns, along one of the six ways. *)
Lemma verify_returns env image disk :
  ∃ r disk',
    verify_detection_2layer jpeg model env image disk = Returned (r, disk') ∧
    verify_path jpeg model env image disk r disk'.
Proof.
  unfold verify_detection_2layer.
  destruct (detect_objects model image LAYER1_CONFIDENCE) as [|d1 l1'] eqn:E1.
  { eexists _, _. split; [done|]. by constructor. }
  destruct (highest_of_cons d1 l1') as [b1 Hb1]. rewrite Hb1.
  destruct (save_snapshot jpeg env image (Some b1) "verification" disk)
    as [sp disk1] eqn:Es.
  destruct (truthy_str sp) as [p|] eqn:Et.
  2: { eexists _, _. split; [done|]. by econstructor 2. }
  apply truthy_str_Some in Et as [-> Hp].
  destruct (cv2_imread p disk1) as [img2|] eqn:Er.
  2: { destruct (delete_snapshot p disk1) as [b disk2] eqn:Ed.
       eexists _, _. split; [done|].
       replace disk2 with (delete_snapshot p disk1).2 by (by rewrite Ed).
       by econstructor 3. }
  destruct (detect_objects model img2 LAYER2_CONFIDENCE) as [|d2 l2'] eqn:E2.
  { destruct (delete_snapshot p disk1) as [b disk2] eqn:Ed.
    eexists _, _. split; [done|].
    replace disk2 with (delete_snapshot p disk1).2 by (by rewrite Ed).
    by econstructor 4. }
  destruct (highest_of_cons d2 l2') as [b2 Hb2]. rewrite Hb2. simpl.
  case_bool_decide as Hne.
  - destruct (delete_snapshot p disk1) as [b disk2] eqn:Ed.
    eexists _, _. split; [done|].
    replace disk2 with (delete_snapshot p disk1).2 by (by rewrite Ed).
    by econstructor 5.
  - assert (Heq : class_name b1 = class_name b2).
    { destruct (decide (class_name b1 = class_name b2)); [done|]. by destruct Hne. }
    eexists _, _. split; [done|]. by econstructor 6.
Qed.


Lemma save_snapshot_path env image det source disk p disk1 :
  save_snapshot jpeg env image det source disk = (Some p, disk1) →
  p ≠ EmptyString ∧ ∀ q, q ≠ p → disk1 !! q = disk !! q.
Proof.
  intros H. pose proof (save_snapshot_cases env image det source disk) as Hc.
  by rewrite H in Hc.
Qed.

Lemma cv2_imread_Some p disk img : cv2_imread p disk = Some img → is_Some (disk !! p).
Proof. unfold cv2_imread. destruct (disk !! p) as [[]|]; naive_solver. Qed.

Lemma highest_Some_cons (l : list Detection) (b : Detection) :
  get_highest_confidence_detection l = Some b → ∃ d l', l = d :: l'.
Proof. destruct l; [done|]. eauto. Qed.

(** The run of [verify_detection_2layer] once both layers have detections. *)
Lemma verify_both_layers env image disk l1 b1 p disk1 img2 l2 b2 :
  detect_objects model image LAYER1_CONFIDENCE = l1 →
  get_highest_confidence_detection l1 = Some b1 →
  save_snapshot jpeg env image (Some b1) "verification" disk = (Some p, disk1) →
  cv2_imread p disk1 = Some img2 →
  detect_objects model img2 LAYER2_CONFIDENCE = l2 →
  get_highest_confidence_detection l2 = Some b2 →
  verify_detection_2layer jpeg model env image disk =
  if bool_decide (class_name b1 ≠ class_name b2) then
    Returned (rejected l1 l2
                ("Species mismatch: L1=" +:+ class_name b1
                   +:+ ", L2=" +:+ class_name b2),
              (delete_snapshot p disk1).2)
  else Returned (accepted l1 l2 p b1 b2, disk1).
Proof.
  intros H1 Hb1 Hs Hr H2 Hb2.
  destruct (save_snapshot_path _ _ _ _ _ _ _ Hs) as [Hp _].
  destruct (highest_Some_cons _ _ Hb1) as (d1 & l1' & ->).
  destruct (highest_Some_cons _ _ Hb2) as (d2 & l2' & ->).
  unfold verify_detection_2layer.
  rewrite H1, Hb1, Hs, (truthy_str_path p Hp), Hr, H2, Hb2. simpl.
  case_bool_decide; [|done].
  by destruct (delete_snapshot p disk1).
Qed.

End VerifierProperties.

(** ** The verifier *)

Lemma append_nil_r (s : string) : s +:+ EmptyString = s.
Proof.
  induction s as [|c s IH]; [done|].
  change (String c (s +:+ EmptyString) = String c s). by f_equal.
Qed.

Lemma append_assoc (s1 s2 s3 : string) : s1 +:+ (s2 +:+ s3) = (s1 +:+ s2) +:+ s3.
Proof.
  induction s1 as [|c s1 IH]; [done|].
  change (String c (s1 +:+ (s2 +:+ s3)) = String c ((s1 +:+ s2) +:+ s3)).
  by f_equal.
Qed.

Section VerifierRuns.

Context {Image : Type}.
Context (jpeg : Image → Image).
Context (model : option (YOLO Image)).

Implicit Types disk : gmap string (file Image).

(** C2. When Layer 1 finds nothing on the image, the verifier returns a
    rejection whose reason is 'No Layer 1 detection' (the reason "no layer 1
    detection" of the taxonomy, in the letter case of the code), and the disk
    is returned as it was: no snapshot has been written. *)
Theorem no_layer1_detection_rejected env image disk :
  detect_objects model image LAYER1_CONFIDENCE = [] →
  ∃ r, verify_detection_2layer jpeg model env image disk = Returned (r, disk) ∧
       verified r = false ∧
       rejection_reason r = Some "No Layer 1 detection" ∧
       lower <$> rejection_reason r = Some "no layer 1 detection" ∧
       snapshot_saved jpeg model env image disk = None.
Proof.
  intros H. unfold verify_detection_2layer, snapshot_saved. rewrite H.
  eexists. split; [done|]. done.
Qed.

(** C3. When the best Layer-2 detection is of another species than the
    best Layer-1 detection, the verifier returns a rejection whose reason
    contains both species names, and the snapshot saved during the run is
    not on the disk that is returned. *)
Theorem species_mismatch_rejected env image disk l1 b1 p disk1 img2 l2 b2 :
  detect_objects model image LAYER1_CONFIDENCE = l1 →
  get_highest_confidence_detection l1 = Some b1 →
  save_snapshot jpeg env image (Some b1) "verification" disk = (Some p, disk1) →
  cv2_imread p disk1 = Some img2 →
  detect_objects model img2 LAYER2_CONFIDENCE = l2 →
  get_highest_confidence_detection l2 = Some b2 →
  class_name b1 ≠ class_name b2 →
  ∃ r disk',
    verify_detection_2layer jpeg model env image disk = Returned (r, disk') ∧
    verified r = false ∧
    (∃ reason, rejection_reason r = Some reason ∧
               mentions (class_name b1) reason ∧
               mentions (class_name b2) reason) ∧
    is_Some (disk1 !! p) ∧
    disk' !! p = None.
Proof.
  intros H1 Hb1 Hs Hr H2 Hb2 Hne.
  rewrite (verify_both_layers _ _ _ _ _ _ _ _ _ _ _ _ H1 Hb1 Hs Hr H2 Hb2).
  rewrite bool_decide_true by done.
  eexists _, _. split; [done|]. split; [done|]. split; [|split].
  - eexists. split; [done|]. split.
    + by exists "Species mismatch: L1=", (", L2=" +:+ class_name b2).
    + exists ("Species mismatch: L1=" +:+ class_name b1 +:+ ", L2="), EmptyString.
      by rewrite append_nil_r, <- !append_assoc.
  - by eapply cv2_imread_Some.
  - apply delete_snapshot_absent.
Qed.


(** C4. When both layers have detections and their best detections agree
    on the species, the verifier returns an accepted result with both
    detection lists, the path of the snapshot, which is on the disk that is
    returned, and a best detection made of that species and of the
    confidences and boxes of the two layers. *)
Theorem species_agree_verified env image disk l1 b1 p disk1 img2 l2 b2 :
  detect_objects model image LAYER1_CONFIDENCE = l1 →
  get_highest_confidence_detection l1 = Some b1 →
  save_snapshot jpeg env image (Some b1) "verification" disk = (Some p, disk1) →
  cv2_imread p disk1 = Some img2 →
  detect_objects model img2 LAYER2_CONFIDENCE = l2 →
  get_highest_confidence_detection l2 = Some b2 →
  class_name b1 = class_name b2 →
  ∃ r disk',
    verify_detection_2layer jpeg model env image disk = Returned (r, disk') ∧
    verified r = true ∧
    layer1_detections r = l1 ∧
    layer2_detections r = l2 ∧
    snapshot_path r = Some p ∧
    is_Some (disk' !! p) ∧
    best_detection r =
      Some {| species := class_name b2;
              confidence_layer1 := confidence b1;
              confidence_layer2 := confidence b2;
              bbox_layer1 := bbox b1;
              bbox_layer2 := bbox b2 |} ∧
    rejection_reason r = None.
Proof.
  intros H1 Hb1 Hs Hr H2 Hb2 Heq.
  rewrite (verify_both_layers _ _ _ _ _ _ _ _ _ _ _ _ H1 Hb1 Hs Hr H2 Hb2).
  rewrite bool_decide_false by (by intros []).
  eexists _, _. split; [done|]. simpl.
  repeat split; try done. by eapply cv2_imread_Some.
Qed.

(** C6. Deleting a path whose file exists returns [true] and leaves the
    path absent, and deleting it again returns [false]; deleting a path
    that has no file returns [false] and changes nothing. *)
Theorem delete_snapshot_twice (filepath : string) disk :
  (is_Some (disk !! filepath) →
   ∃ disk1, delete_snapshot filepath disk = (true, disk1) ∧
            disk1 !! filepath = None ∧
            delete_snapshot filepath disk1 = (false, disk1)) ∧
  (disk !! filepath = None →
   delete_snapshot filepath disk = (false, disk)).
Proof.
  split.
  - intros [f Hf]. exists (delete filepath disk).
    rewrite !delete_snapshot_unfold, Hf, lookup_delete_eq. done.
  - intros Hf. by rewrite delete_snapshot_unfold, Hf.
Qed.

(** C10. The verifier always returns a result, and in every result:
    [verified] holds exactly when there is no rejection reason; a rejected
    result has neither snapshot path nor best detection; an accepted result
    has both. *)
Theorem verification_result_shape env image disk :
  ∃ r disk',
    verify_detection_2layer jpeg model env image disk = Returned (r, disk') ∧
    (verified r = true ↔ rejection_reason r = None) ∧
    (verified r = false → snapshot_path r = None ∧ best_detection r = None) ∧
    (verified r = true →
     is_Some (snapshot_path r) ∧ is_Some (best_detection r)).
Proof.
  destruct (verify_returns jpeg model env image disk) as (r & disk' & Hv & Hp).
  exists r, disk'. split; [done|].
  destruct Hp; simpl; repeat split; try done; eauto.
Qed.

End VerifierRuns.

(** ** Sessions of verification attempts *)

Section SessionProperties.

Context {Image : Type}.
Context (jpeg : Image → Image).
Context (model : option (YOLO Image)).

Implicit Types disk : gmap string (file Image).

(** A rejection after the save: only the path of the snapshot has
    changed, and the snapshot is gone. *)
Ltac saved_then_deleted :=
  match goal with
  | Hne : ?p ≠ EmptyString, Hs : save_snapshot _ _ _ _ _ _ = (Some ?p, _) |- _ =>
      rewrite (truthy_str_path p Hne);
      destruct (save_snapshot_path _ _ _ _ _ _ _ _ Hs) as [_ Ho];
      split;
      [ intros q Hq; rewrite delete_snapshot_other by done; by apply Ho
      | right; split; [done | apply delete_snapshot_absent] ]
  end.

(** What one attempt does to the disk, by the path it saved its snapshot
    to. *)
Lemma verify_effect env image disk r disk' :
  verify_path jpeg model env image disk r disk' →
  (verified r = false → snapshot_path r = None) ∧
  match snapshot_saved jpeg model env image disk with
  | None => disk' = disk ∧ verified r = false
  | Some p =>
      (∀ q, q ≠ p → disk' !! q = disk !! q) ∧
      ((verified r = true ∧ snapshot_path r = Some p ∧ is_Some (disk' !! p)) ∨
       (verified r = false ∧ disk' !! p = None))
  end.
Proof.
  intros Hp. split; [by destruct Hp|].
  unfold snapshot_saved.
  destruct Hp as [H1|l1 b1 sp disk1 H1 Hb1 Hs Ht|l1 b1 p disk1 H1 Hb1 Hs Hne Hr
                  |l1 b1 p disk1 img2 H1 Hb1 Hs Hne Hr H2
                  |l1 b1 p disk1 img2 l2 b2 H1 Hb1 Hs Hne Hr H2 Hb2 Hd
                  |l1 b1 p disk1 img2 l2 b2 H1 Hb1 Hs Hne Hr H2 Hb2 Hd];
    rewrite H1; [done|..];
    destruct (highest_Some_cons _ _ Hb1) as (d & l' & ->);
    rewrite Hb1, Hs; cbn [fst].
  - rewrite Ht.
    pose proof (save_snapshot_cases jpeg env image (Some b1) "verification" disk) as Hc.
    rewrite Hs in Hc. destruct sp as [p|]; [|done].
    destruct Hc as [Hne _]. by rewrite (truthy_str_path p Hne) in Ht.
  - by saved_then_deleted.
  - by saved_then_deleted.
  - by saved_then_deleted.
  - rewrite (truthy_str_path p Hne).
    destruct (save_snapshot_path _ _ _ _ _ _ _ _ Hs) as [_ Ho].
    split; [exact Ho|].
    left. repeat split; try done. by eapply cv2_imread_Some.
Qed.


(** One attempt keeps the snapshots on disk referenced. *)
Lemma attempt_referenced env image (s : Session) r disk' :
  verify_path jpeg model env image (disk_now s) r disk' →
  snapshots_referenced s →
  snapshots_referenced
    {| results := results s ++ [r];
       created := created s ++
                  option_list (snapshot_saved jpeg model env image (disk_now s));
       disk_now := disk' |}.
Proof.
  intros Hp Hinv.
  destruct (verify_effect env image (disk_now s) r disk' Hp) as [Hrej Heff].
  intros q. simpl. setoid_rewrite elem_of_app.
  destruct (snapshot_saved jpeg model env image (disk_now s)) as [p|]; simpl.
  - destruct Heff as [Hother Hcase].
    destruct (decide (q = p)) as [->|Hq].
    + intros _ [f Hf].
      destruct Hcase as [(Hv & Hsp & Hon)|(Hv & Hoff)]; [|congruence].
      exists r. rewrite list_elem_of_singleton. eauto.
    + rewrite Hother by done.
      intros [Hc|Hc%list_elem_of_singleton] Hon; [|done].
      destruct (Hinv q Hc Hon) as (r' & Hin & Hv' & Hsp'). eauto.
  - destruct Heff as [-> Hv].
    intros [Hc|Hc%elem_of_nil] Hon; [|done].
    destruct (Hinv q Hc Hon) as (r' & Hin & Hv' & Hsp'). eauto.
Qed.

(** One attempt keeps the references of accepted results, when the name it
    gives its snapshot is not on disk. *)
Lemma attempt_keeps_references env image (s : Session) r disk' :
  verify_path jpeg model env image (disk_now s) r disk' →
  match snapshot_saved jpeg model env image (disk_now s) with
  | Some p => disk_now s !! p = None
  | None => True
  end →
  references_kept s →
  references_kept
    {| results := results s ++ [r];
       created := created s ++
                  option_list (snapshot_saved jpeg model env image (disk_now s));
       disk_now := disk' |}.
Proof.
  intros Hp Hfresh Hinv.
  destruct (verify_effect env image (disk_now s) r disk' Hp) as [Hrej Heff].
  intros r' q. simpl. rewrite !elem_of_app, list_elem_of_singleton.
  destruct (snapshot_saved jpeg model env image (disk_now s)) as [p|]; simpl.
  - destruct Heff as [Hother Hcase].
    intros [Hin| ->] Hv' Hsp'.
    + destruct (Hinv r' q Hin Hv' Hsp') as [Hc [f Hf]].
      split; [by left|]. rewrite Hother by congruence. eauto.
    + destruct Hcase as [(Hv & Hsp & Hon)|(Hv & Hoff)]; [|congruence].
      assert (q = p) as -> by congruence.
      split; [|done]. right. by apply list_elem_of_singleton.
  - destruct Heff as [-> Hv].
    intros [Hin| ->] Hv' Hsp'; [|congruence].
    destruct (Hinv r' q Hin Hv' Hsp') as [Hc Hon]. split; [by left|done].
Qed.

Lemma session_accounted (calls : list (Env * Image)) :
  ∀ s : Session,
    snapshots_referenced s →
    ∃ s', session_run jpeg model calls s = Returned s' ∧
          snapshots_referenced s' ∧
          (fresh_names jpeg model calls (disk_now s) = true →
           references_kept s → references_kept s').
Proof.
  induction calls as [|[env image] calls IH]; intros s Hinv.
  - by exists s.
  - simpl.
    destruct (verify_returns jpeg model env image (disk_now s))
      as (r & disk' & Hv & Hp).
    rewrite Hv. simpl.
    edestruct IH as (s' & Hrun & Hinv' & Hkept').
    { by apply attempt_referenced. }
    exists s'. split; [exact Hrun|]. split; [done|].
    intros [Hf1 Hf2]%andb_prop Hkept. apply Hkept'; [done|].
    apply attempt_keeps_references; [done| |done].
    destruct (snapshot_saved jpeg model env image (disk_now s)) as [p|]; [|done].
    unfold path_exists in Hf1. apply negb_true_iff in Hf1.
    apply bool_decide_eq_false in Hf1.
    destruct (disk_now s !! p) eqn:E; [|done]. destruct Hf1. eauto.
Qed.

(** C5. After any number of verification attempts, a snapshot the
    verifier has saved is on disk only if an accepted result of the session
    refers to it; and, the name of each snapshot being fresh when its attempt
    starts, every accepted result refers to a snapshot that is on disk.  In
    every attempt that saves a snapshot and ends in a rejection, the snapshot
    is off the disk when the attempt returns. *)
Theorem snapshots_on_disk_iff_verified (calls : list (Env * Image)) disk :
  (∃ s, session_run jpeg model calls (session_start disk) = Returned s ∧
        snapshots_referenced s ∧
        (fresh_names jpeg model calls disk = true → references_kept s)) ∧
  (∀ env image disk0 r disk' p,
     verify_detection_2layer jpeg model env image disk0 = Returned (r, disk') →
     snapshot_saved jpeg model env image disk0 = Some p →
     verified r = false →
     disk' !! p = None).
Proof.
  split.
  - destruct (session_accounted calls (session_start disk))
      as (s & Hrun & Href & Hkept).
    { intros p Hc. by apply elem_of_nil in Hc. }
    exists s. split; [done|]. split; [done|].
    intros Hfresh. apply Hkept; [done|].
    intros r p Hin. by apply elem_of_nil in Hin.
  - intros env image disk0 r disk' p Hv Hs Hrej.
    destruct (verify_returns jpeg model env image disk0) as (r0 & disk0' & Hv0 & Hp).
    rewrite Hv in Hv0. injection Hv0 as <- <-.
    destruct (verify_effect env image disk0 r disk' Hp) as [_ Heff].
    rewrite Hs in Heff. destruct Heff as [_ [(Hv' & _)|(_ & Hoff)]]; congruence.
Qed.

End SessionProperties.

(** ** The frame source *)

Section FrameSourceProperties.

Context {Pixels : Type}.
Context (resample : Pixels → Z → Z → Pixels).

Implicit Types self : WebcamProcessor Pixels.

Lemma read_frame_not_running (t : float) self :
  is_running self = false →
  read_frame resample t self = Returned ((false, None), self).
Proof. intros H. unfold read_frame. by rewrite H. Qed.

(** C7. When [start] returns [False] because the capture handle does not
    open, whatever the state of the source, or for any other reason on a
    source that is not running, then nothing is raised, [is_running] is
    false afterwards and [read_frame] returns [(False, None)]. *)
Theorem start_failure_leaves_stopped
    (device : outcome (VideoCapture Pixels)) (t t' : float) self self' :
  start device t self = (false, self') →
  running self = false ∨ (∃ c, device = Returned c ∧ cap_isOpened c = false) →
  is_running self' = false ∧
  read_frame resample t' self' = Returned ((false, None), self').
Proof.
  intros Hs Hc.
  assert (Hr : is_running self' = false).
  { unfold start in Hs. destruct device as [c|e]; simpl in Hs.
    - destruct (cap_isOpened c) eqn:Ho; simpl in Hs; [done|].
      injection Hs as <-. unfold is_running. simpl. rewrite Ho.
      apply andb_false_r.
    - injection Hs as <-. destruct Hc as [Hc|(c & Hc & _)]; [|done].
      unfold is_running. by rewrite Hc. }
  split; [done|]. by apply read_frame_not_running.
Qed.

(** C8, as the code has it.  A frame that [read_frame] returns from a
    stream source is the frame read, resized to the target width and height
    when its width or its height exceeds the target, and unchanged otherwise;
    so it never exceeds the target.  A frame from a device source is
    returned as read. *)
Theorem read_frame_dimensions (t : float) self c frame c' out self' :
  cap self = Some c →
  cap_read c = (Some frame, c') →
  read_frame resample t self = Returned ((true, Some out), self') →
  match camera_index self with
  | inr _ =>
      (WEBCAM_WIDTH < (shape frame).2 ∨ WEBCAM_HEIGHT < (shape frame).1 →
       out = cv2_resize resample frame (WEBCAM_WIDTH, WEBCAM_HEIGHT) ∧
       shape out = (WEBCAM_HEIGHT, WEBCAM_WIDTH)) ∧
      ((shape frame).2 ≤ WEBCAM_WIDTH ∧ (shape frame).1 ≤ WEBCAM_HEIGHT →
       out = frame) ∧
      (shape out).2 ≤ WEBCAM_WIDTH ∧ (shape out).1 ≤ WEBCAM_HEIGHT
  | inl _ => out = frame
  end.
Proof.
  intros Hcap Hread Hret. unfold read_frame in Hret.
  destruct (is_running self); simpl in Hret; [|done].
  rewrite Hcap in Hret. simpl in Hret. rewrite Hread in Hret.
  set (fr := match camera_index self with
             | inl _ => frame
             | inr _ => _
             end) in Hret.
  assert (Hout : out = fr).
  { destruct ((frame_count self + 1) mod 10 =? 0).
    - destruct (py_truediv _ _); simpl in Hret; [|done]. by injection Hret.
    - by injection Hret. }
  subst out fr. clear Hret.
  destruct (camera_index self) as [i|url]; [done|].
  destruct frame as [[h w] px]. simpl.
  destruct (WEBCAM_WIDTH <? w) eqn:Hw; destruct (WEBCAM_HEIGHT <? h) eqn:Hh;
    simpl; unfold WEBCAM_WIDTH, WEBCAM_HEIGHT in *;
    repeat split; intros; try done; try lia.
Qed.

End FrameSourceProperties.

(** ** The detector on an inference error *)

(** C9, as the code has it.  When the inference raises, [detect_objects]
    catches the error and returns the empty list. *)
Theorem detect_objects_swallows_error {Image : Type} (m : YOLO Image)
    (image : Image) (c : float) (e : exception) :
  predict m image c = Raised e →
  detect_objects (Some m) image c = [].
Proof. intros H. unfold detect_objects. by rewrite H. Qed.

(** C9 fails: the caller gets the same empty list from an inference that
    raises and from one that finds nothing. *)
Lemma inference_errors_not_distinguishable : ¬ inference_errors_distinguishable.
Proof.
  intros H.
  apply (H nat failing_model quiet_model 0%nat LAYER1_CONFIDENCE
           (OtherException "cv2.error")); reflexivity.
Qed.

Lemma detect_objects_swallows_error_witness :
  detect_objects (Some failing_model) 0%nat LAYER1_CONFIDENCE = [].
Proof.
  apply (detect_objects_swallows_error failing_model 0%nat LAYER1_CONFIDENCE
           (OtherException "cv2.error")).
  reflexivity.
Defined.

(** ** Instances *)

Lemma highest_confidence_first_maximal_witness :
  let D := [sample_detection "Bear" 0 50; sample_detection "Tiger" 3 90;
            sample_detection "Elephant" 1 90] in
  (D = [] → get_highest_confidence_detection D = None) ∧
  (D ≠ [] →
   ∃ i d, get_highest_confidence_detection D = Some d ∧ first_maximal D i d).
Proof.
  apply (highest_confidence_first_maximal
           [sample_detection "Bear" 0 50; sample_detection "Tiger" 3 90;
            sample_detection "Elephant" 1 90]).
  repeat constructor.
Defined.

Example highest_confidence_tie :
  get_highest_confidence_detection
    [sample_detection "Bear" 0 50; sample_detection "Tiger" 3 90;
     sample_detection "Elephant" 1 90]
  = Some (sample_detection "Tiger" 3 90).
Proof. vm_compute. reflexivity. Qed.

Lemma no_layer1_detection_rejected_witness :
  ∃ r, verify_detection_2layer sample_jpeg (Some sample_model) sample_env 0%nat ∅
       = Returned (r, ∅) ∧
       verified r = false ∧
       rejection_reason r = Some "No Layer 1 detection" ∧
       lower <$> rejection_reason r = Some "no layer 1 detection" ∧
       snapshot_saved sample_jpeg (Some sample_model) sample_env 0%nat ∅ = None.
Proof.
  apply (no_layer1_detection_rejected sample_jpeg (Some sample_model)
           sample_env 0%nat ∅).
  vm_compute. reflexivity.
Defined.

Lemma species_mismatch_rejected_witness :
  ∃ r disk',
    verify_detection_2layer sample_jpeg (Some sample_model) sample_env 1%nat ∅
    = Returned (r, disk') ∧
    verified r = false ∧
    (∃ reason, rejection_reason r = Some reason ∧
               mentions "Tiger" reason ∧ mentions "Bear" reason) ∧
    is_Some (({[ tiger_snapshot := Jpeg 101%nat ]} : gmap string (file nat))
               !! tiger_snapshot) ∧
    disk' !! tiger_snapshot = None.
Proof.
  apply (species_mismatch_rejected sample_jpeg (Some sample_model) sample_env
           1%nat ∅ [sample_detection "Tiger" 3 60] (sample_detection "Tiger" 3 60)
           tiger_snapshot {[ tiger_snapshot := Jpeg 101%nat ]} 101%nat
           [sample_detection "Bear" 0 50] (sample_detection "Bear" 0 50));
    vm_compute; (reflexivity || discriminate).
Defined.

Lemma species_agree_verified_witness :
  ∃ r disk',
    verify_detection_2layer sample_jpeg (Some sample_model) sample_env 2%nat ∅
    = Returned (r, disk') ∧
    verified r = true ∧
    layer1_detections r = [sample_detection "Elephant" 1 55] ∧
    layer2_detections r = [sample_detection "Elephant" 1 42] ∧
    snapshot_path r = Some elephant_snapshot ∧
    is_Some (disk' !! elephant_snapshot) ∧
    best_detection r =
      Some {| species := "Elephant";
              confidence_layer1 := percent 55;
              confidence_layer2 := percent 42;
              bbox_layer1 := (10, 20, 110, 220);
              bbox_layer2 := (10, 20, 110, 220) |} ∧
    rejection_reason r = None.
Proof.
  apply (species_agree_verified sample_jpeg (Some sample_model) sample_env
           2%nat ∅ [sample_detection "Elephant" 1 55]
           (sample_detection "Elephant" 1 55)
           elephant_snapshot {[ elephant_snapshot := Jpeg 102%nat ]} 102%nat
           [sample_detection "Elephant" 1 42] (sample_detection "Elephant" 1 42));
    vm_compute; reflexivity.
Defined.

Lemma snapshots_on_disk_iff_verified_witness :
  (∃ s, session_run sample_jpeg (Some sample_model)
          [(sample_env, 2%nat); (later_env, 1%nat)] (session_start ∅)
        = Returned s ∧
        snapshots_referenced s ∧ references_kept s) ∧
  (∅ : gmap string (file nat)) !! tiger_snapshot = None.
Proof.
  destruct (snapshots_on_disk_iff_verified sample_jpeg (Some sample_model)
              [(sample_env, 2%nat); (later_env, 1%nat)] ∅)
    as [(s & Hrun & Href & Hkept) Hrej].
  split.
  - exists s. split; [exact Hrun|]. split; [exact Href|].
    apply Hkept. vm_compute. reflexivity.
  - apply (Hrej sample_env 1%nat ∅
             (rejected [sample_detection "Tiger" 3 60]
                [sample_detection "Bear" 0 50]
                "Species mismatch: L1=Tiger, L2=Bear")
             ∅ tiger_snapshot); vm_compute; reflexivity.
Defined.

(** C5 fails when a name repeats: a second attempt in the millisecond of
    an accepted one, for the same species and percentage, writes over the
    accepted snapshot and, being rejected, deletes it; the accepted result
    then refers to a file that is not on disk. *)
Lemma snapshots_not_exactly_verified : ¬ snapshots_on_disk_exactly_verified.
Proof.
  intros H.
  specialize (H nat sample_jpeg (Some second_elephant_model)
                [(sample_env, 2%nat); (same_ms_env, 3%nat)] ∅
                {| results :=
                     [accepted [sample_detection "Elephant" 1 55]
                        [sample_detection "Elephant" 1 42] elephant_snapshot
                        (sample_detection "Elephant" 1 55)
                        (sample_detection "Elephant" 1 42);
                      rejected [sample_detection "Elephant" 1 55] []
                        "No Layer 2 detection"];
                   created := [elephant_snapshot; elephant_snapshot];
                   disk_now := ∅ |}).
  destruct (H ltac:(vm_compute; reflexivity) elephant_snapshot) as [_ Hback].
  { simpl. left. }
  destruct Hback as [f Hf].
  - eexists. split; [left|]. done.
  - simpl in Hf. by rewrite lookup_empty in Hf.
Qed.

Lemma delete_snapshot_twice_witness :
  (∃ disk1 : gmap string (file nat),
     delete_snapshot tiger_snapshot {[ tiger_snapshot := Jpeg 101%nat ]}
     = (true, disk1) ∧
     disk1 !! tiger_snapshot = None ∧
     delete_snapshot tiger_snapshot disk1 = (false, disk1)) ∧
  delete_snapshot tiger_snapshot (∅ : gmap string (file nat)) = (false, ∅).
Proof.
  split.
  - apply (delete_snapshot_twice tiger_snapshot
             ({[ tiger_snapshot := Jpeg 101%nat ]} : gmap string (file nat))).
    vm_compute. eauto.
  - apply (delete_snapshot_twice tiger_snapshot (∅ : gmap string (file nat))).
    vm_compute. reflexivity.
Defined.

Lemma start_failure_leaves_stopped_witness :
  let self' :=
    (start (Returned closed_capture) (float_of_Z 1000)
       (WebcamProcessor_init (inl 0) (float_of_Z 999) None)).2 in
  is_running self' = false ∧
  read_frame sample_resample (float_of_Z 1001) self'
  = Returned ((false, None), self').
Proof.
  apply (start_failure_leaves_stopped sample_resample (Returned closed_capture)
           (float_of_Z 1000) (float_of_Z 1001)
           (WebcamProcessor_init (inl 0) (float_of_Z 999) None)).
  - vm_compute. reflexivity.
  - left. reflexivity.
Defined.

Lemma read_frame_dimensions_witness :
  let frame := sample_frame 720 1280 in
  let out := cv2_resize sample_resample frame (WEBCAM_WIDTH, WEBCAM_HEIGHT) in
  (WEBCAM_WIDTH < (shape frame).2 ∨ WEBCAM_HEIGHT < (shape frame).1 →
   out = cv2_resize sample_resample frame (WEBCAM_WIDTH, WEBCAM_HEIGHT) ∧
   shape out = (WEBCAM_HEIGHT, WEBCAM_WIDTH)) ∧
  ((shape frame).2 ≤ WEBCAM_WIDTH ∧ (shape frame).1 ≤ WEBCAM_HEIGHT →
   out = frame) ∧
  (shape out).2 ≤ WEBCAM_WIDTH ∧ (shape out).1 ≤ WEBCAM_HEIGHT.
Proof.
  eapply (read_frame_dimensions sample_resample (float_of_Z 1001)
            (stream_source [Some (sample_frame 720 1280)])
            (sample_capture [Some (sample_frame 720 1280)])
            (sample_frame 720 1280)
            (sample_capture [])
            (cv2_resize sample_resample (sample_frame 720 1280)
               (WEBCAM_WIDTH, WEBCAM_HEIGHT)));
    vm_compute; reflexivity.
Defined.

(** C8 fails: a stream frame below the target keeps its size, a larger
    one is brought to the target. *)
Lemma frames_dimension_not_invariant : ¬ frames_dimension_invariant sample_resample.
Proof.
  intros H.
  specialize (H (float_of_Z 1001) (float_of_Z 1001)
                (stream_source [Some (sample_frame 240 320)])
                (stream_source [Some (sample_frame 720 1280)])).
  vm_compute in H.
  specialize (H _ _ _ _ eq_refl eq_refl). discriminate H.
Qed.

Example small_stream_frame_unchanged :
  (λ o, match o with
        | Returned ((ok, Some f), _) => Some (ok, shape f)
        | _ => None
        end)
    (read_frame sample_resample (float_of_Z 1001)
       (stream_source [Some (sample_frame 240 320)]))
  = Some (true, (240, 320)).
Proof. vm_compute. reflexivity. Qed.

(** ** Evaluation on sample data *)

Example sample_layer1_tiger :
  detect_objects (Some sample_model) 1%nat LAYER1_CONFIDENCE
  = [sample_detection "Tiger" 3 60].
Proof. vm_compute. reflexivity. Qed.

Example sample_verify_tiger_bear :
  verify_detection_2layer sample_jpeg (Some sample_model) sample_env 1%nat ∅
  = Returned
      (rejected [sample_detection "Tiger" 3 60] [sample_detection "Bear" 0 50]
         "Species mismatch: L1=Tiger, L2=Bear",
       ∅).
Proof. vm_compute. reflexivity. Qed.

Example sample_verify_elephant :
  (λ o, match o with
        | Returned (r, disk) => (verified r, snapshot_path r, dom disk)
        | Raised _ => (false, None, ∅)
        end)
    (verify_detection_2layer sample_jpeg (Some sample_model) sample_env 2%nat ∅)
  = (true,
     Some "snapshots/20240101_120000_123_Elephant_55_verification.jpg",
     {[ "snapshots/20240101_120000_123_Elephant_55_verification.jpg" ]}).
Proof. vm_compute. reflexivity. Qed.

(** A NaN confidence, which the data model of a detection excludes,
    compares false both ways: the selector keeps the item it holds, and the
    result need not be maximal. *)
Example highest_confidence_nan :
  get_highest_confidence_detection
    [ {| class_id := 3; class_name := "Tiger"; confidence := percent 30;
         bbox := (0, 0, 1, 1) |};
      {| class_id := 0; class_name := "Bear"; confidence := S754_nan;
         bbox := (0, 0, 1, 1) |};
      {| class_id := 1; class_name := "Elephant"; confidence := percent 20;
         bbox := (0, 0, 1, 1) |} ]
  = Some {| class_id := 3; class_name := "Tiger"; confidence := percent 30;
            bbox := (0, 0, 1, 1) |}.
Proof. vm_compute. reflexivity. Qed.

Example should_trigger_snapshot_samples :
  should_trigger_snapshot [sample_detection "Tiger" 3 80] = Returned true ∧
  should_trigger_snapshot [sample_detection "Tiger" 3 50] = Returned false ∧
  should_trigger_snapshot [] = Returned false.
Proof. vm_compute. done. Qed.

(** A refused write leaves nothing to read: the attempt is rejected with
    'Snapshot read failed' and the disk is as before. *)
Example sample_verify_refused_write :
  verify_detection_2layer sample_jpeg (Some sample_model)
    {| now := "20240101_120000_123456"; imwrite_does := Refused |} 1%nat ∅
  = Returned (rejected [sample_detection "Tiger" 3 60] [] "Snapshot read failed", ∅).
Proof. vm_compute. reflexivity. Qed.

(** * Further properties *)

(** ** The detector *)

Lemma py_int_finite (x : float) :
  finite x = true → ∃ n, py_int x = Returned n.
Proof. destruct x; simpl; try done; eauto. Qed.

Lemma py_int_not_finite (x : float) :
  finite x = false → ∃ e, py_int x = Raised e.
Proof. destruct x; simpl; try done; eauto. Qed.

(** A box is parsed when its numbers are finite, and not otherwise. *)
Lemma parse_box_finite (b : Box) :
  box_finite b = true →
  ∃ d, parse_box b = Returned d ∧ confidence d = conf b ∧
       py_int (cls b) = Returned (class_id d) ∧
       class_name d =
         default ("Class_" +:+ pretty (class_id d)) (CLASS_NAMES !! class_id d).
Proof.
  unfold box_finite, parse_box. destruct b as [c cf [[[x1 y1] x2] y2]]. simpl.
  intros ((((Hc & H1)%andb_prop & H2)%andb_prop & H3)%andb_prop & H4)%andb_prop.
  destruct (py_int_finite _ Hc) as [n ->].
  destruct (py_int_finite _ H1) as [n1 ->].
  destruct (py_int_finite _ H2) as [n2 ->].
  destruct (py_int_finite _ H3) as [n3 ->].
  destruct (py_int_finite _ H4) as [n4 ->].
  simpl. eexists. repeat split.
Qed.

Lemma parse_box_not_finite (b : Box) :
  box_finite b = false → ∃ e, parse_box b = Raised e.
Proof.
  unfold box_finite, parse_box. destruct b as [c cf [[[x1 y1] x2] y2]]. simpl.
  destruct (finite c) eqn:Hc; simpl.
  2: { destruct (py_int_not_finite _ Hc) as [e ->]. by eexists. }
  destruct (py_int_finite _ Hc) as [n ->]. simpl.
  destruct (finite x1) eqn:H1; simpl.
  2: { destruct (py_int_not_finite _ H1) as [e ->]. by eexists. }
  destruct (py_int_finite _ H1) as [n1 ->]. simpl.
  destruct (finite y1) eqn:H2; simpl.
  2: { destruct (py_int_not_finite _ H2) as [e ->]. by eexists. }
  destruct (py_int_finite _ H2) as [n2 ->]. simpl.
  destruct (finite x2) eqn:H3; simpl.
  2: { destruct (py_int_not_finite _ H3) as [e ->]. by eexists. }
  destruct (py_int_finite _ H3) as [n3 ->]. simpl.
  intros H4. destruct (py_int_not_finite _ H4) as [e ->]. by eexists.
Qed.

Lemma mapM_parse_finite (boxes : list Box) :
  Forall (λ b, box_finite b = true) boxes →
  ∃ ds, mapM parse_box boxes = Returned ds ∧
        Forall2 (λ b d, parse_box b = Returned d) boxes ds.
Proof.
  induction 1 as [|b boxes Hb _ (ds & IH & Hall)].
  - by exists [].
  - destruct (parse_box_finite b Hb) as (d & Hd & _).
    exists (d :: ds). simpl. rewrite Hd. simpl. rewrite IH. simpl.
    split; [done|]. by constructor.
Qed.

Lemma mapM_parse_not_finite (boxes : list Box) :
  Exists (λ b, box_finite b = false) boxes →
  ∃ e, mapM parse_box boxes = Raised e.
Proof.
  induction 1 as [b boxes Hb|b boxes _ (e & IH)].
  - destruct (parse_box_not_finite b Hb) as (e & He).
    exists e. simpl. by rewrite He.
  - simpl. destruct (parse_box b) as [d|e']; simpl; [|by eexists].
    rewrite IH. by eexists.
Qed.

(** X1. When the inference returns and the numbers of every box are
    finite, [detect_objects] returns one detection per box, in the order of
    the boxes, each with the confidence of its box and the class name the
    table gives for its class id.  When some box has a NaN or an infinite
    class or coordinate, [detect_objects] returns the empty list: one bad box
    discards the detections of all the others. *)
Theorem detect_objects_all_or_nothing {Image : Type} (m : YOLO Image)
    (image : Image) (c : float) (results : list (list Box)) :
  predict m image c = Returned results →
  (Forall (λ b, box_finite b = true) (concat results) →
   Forall2
     (λ b d,
        confidence d = conf b ∧
        py_int (cls b) = Returned (class_id d) ∧
        class_name d =
          default ("Class_" +:+ pretty (class_id d)) (CLASS_NAMES !! class_id d))
     (concat results) (detect_objects (Some m) image c)) ∧
  (Exists (λ b, box_finite b = false) (concat results) →
   detect_objects (Some m) image c = []).
Proof.
  intros Hp. unfold detect_objects. rewrite Hp. simpl. split.
  - intros Hall. destruct (mapM_parse_finite _ Hall) as (ds & -> & H2). simpl.
    eapply Forall2_impl; [exact H2|]. intros b d Hd. simpl in Hd.
    assert (Hb : box_finite b = true).
    { destruct (box_finite b) eqn:E; [done|].
      destruct (parse_box_not_finite b E) as [e He]. congruence. }
    destruct (parse_box_finite b Hb) as (d' & Hd' & ?).
    by replace d with d' by congruence.
  - intros Hex. by destruct (mapM_parse_not_finite _ Hex) as (e & ->).
Qed.

Lemma CLASS_NAMES_lookup (id : Z) (name : string) :
  CLASS_NAMES !! id = Some name ↔
  (id = 0 ∧ name = "Bear") ∨ (id = 1 ∧ name = "Elephant") ∨
  (id = 2 ∧ name = "Leopard") ∨ (id = 3 ∧ name = "Tiger").
Proof.
  unfold CLASS_NAMES. rewrite !lookup_insert, lookup_empty.
  repeat case_decide; subst;
    (split;
     [ intros Hx; (discriminate Hx || (injection Hx as <-; tauto))
     | intros [[? ?]|[[? ?]|[[? ?]|[? ?]]]]; subst; (done || lia) ]).
Qed.

Lemma detect_objects_parsed {Image : Type} (model : option (YOLO Image))
    (image : Image) (c : float) (d : Detection) :
  d ∈ detect_objects model image c → ∃ b, parse_box b = Returned d.
Proof.
  unfold detect_objects. destruct model as [m|]; [|by intros ?%elem_of_nil].
  destruct (predict m image c) as [results|e]; simpl; [|by intros ?%elem_of_nil].
  generalize (concat results). intros boxes. revert d.
  assert (H : ∀ ds, mapM parse_box boxes = Returned ds →
                    ∀ d, d ∈ ds → ∃ b, parse_box b = Returned d).
  { induction boxes as [|b boxes IH]; simpl; intros ds Hds d Hd.
    - injection Hds as <-. by apply elem_of_nil in Hd.
    - destruct (parse_box b) as [d0|e] eqn:Hb; simpl in Hds; [|done].
      destruct (mapM parse_box boxes) as [ds0|e]; simpl in Hds; [|done].
      injection Hds as <-. apply elem_of_cons in Hd as [->|Hd]; eauto. }
  intros d. destruct (mapM parse_box boxes) as [ds|e]; simpl.
  - by apply H.
  - by intros ?%elem_of_nil.
Qed.

(** X2. In every detection that [detect_objects] returns, the class name
    is one of the four species of the table exactly when the class id is the
    id of that species; with any other class id the name is 'Class_'
    followed by the id. *)
Theorem detect_objects_class_name {Image : Type} (model : option (YOLO Image))
    (image : Image) (c : float) (d : Detection) :
  d ∈ detect_objects model image c →
  (∀ id name, CLASS_NAMES !! id = Some name →
              (class_name d = name ↔ class_id d = id)) ∧
  (CLASS_NAMES !! class_id d = None →
   class_name d = "Class_" +:+ pretty (class_id d)).
Proof.
  intros (b & Hb)%detect_objects_parsed.
  assert (Hn : class_name d =
               default ("Class_" +:+ pretty (class_id d))
                 (CLASS_NAMES !! class_id d)).
  { assert (Hf : box_finite b = true).
    { destruct (box_finite b) eqn:E; [done|].
      destruct (parse_box_not_finite b E) as [e He]. congruence. }
    destruct (parse_box_finite b Hf) as (d' & Hd' & _ & _ & Hname).
    by replace d with d' by congruence. }
  split; [|by intros E; rewrite Hn, E].
  intros id name Hid. rewrite Hn.
  destruct (CLASS_NAMES !! class_id d) as [name'|] eqn:E; simpl.
  - apply CLASS_NAMES_lookup in Hid, E.
    destruct Hid as [[-> ->]|[[-> ->]|[[-> ->]|[-> ->]]]];
      destruct E as [[E ->]|[[E ->]|[[E ->]|[E ->]]]];
      split; intros Hx; (done || lia).
  - split.
    + intros H. apply CLASS_NAMES_lookup in Hid.
      destruct Hid as [[_ ->]|[[_ ->]|[[_ ->]|[_ ->]]]]; discriminate H.
    + intros <-. congruence.
Qed.

(** ** Summaries and filters *)

Lemma count_species_cons (s : string) (d : Detection) (D : list Detection) :
  count_species s (d :: D) =
  ((if decide (class_name d = s) then 1 else 0) + count_species s D)%nat.
Proof.
  unfold count_species. rewrite filter_cons.
  by destruct (decide (class_name d = s)).
Qed.

(** The loop of [get_detection_summary], from any summary. *)
Lemma summary_loop (D : list Detection) (acc : gmap string Z) (s : string) :
  fold_left
    (λ summary det,
       let species := class_name det in
       match summary !! species with
       | Some n => <[species := n + 1]> summary
       | None => <[species := 1]> summary
       end) D acc !! s
  = match count_species s D with
    | O => acc !! s
    | S _ => Some (default 0 (acc !! s) + Z.of_nat (count_species s D))
    end.
Proof.
  revert acc. induction D as [|d D IH]; intros acc; [done|].
  simpl. rewrite IH, count_species_cons.
  destruct (decide (class_name d = s)) as [<-|Hne].
  - destruct (acc !! class_name d) as [n|] eqn:E;
      rewrite lookup_insert_eq; simpl;
      destruct (count_species (class_name d) D); simpl; f_equal; lia.
  - simpl. destruct (acc !! class_name d) as [n|] eqn:E;
      by rewrite lookup_insert_ne.
Qed.

(** X3. The summary gives each species that occurs among the detections
    the number of its detections, and gives no entry to a species that does
    not occur. *)
Theorem detection_summary_counts (D : list Detection) (s : string) :
  get_detection_summary D !! s =
  if decide (count_species s D = 0%nat) then None
  else Some (Z.of_nat (count_species s D)).
Proof.
  unfold get_detection_summary. rewrite summary_loop, lookup_empty.
  destruct (count_species s D); simpl; [done|]. by rewrite Z.add_0_l.
Qed.

Lemma summary_total_insert_new (m : gmap string Z) (s : string) (n : Z) :
  m !! s = None → summary_total (<[s := n]> m) = n + summary_total m.
Proof.
  intros H. unfold summary_total. rewrite map_fold_insert_L; [done| |done].
  intros j1 j2 z1 z2 y _ _ _. cbv beta. lia.
Qed.

Lemma summary_total_insert_old (m : gmap string Z) (s : string) (n n' : Z) :
  m !! s = Some n → summary_total (<[s := n']> m) = n' - n + summary_total m.
Proof.
  intros H.
  rewrite <- (insert_delete_eq m s n').
  rewrite summary_total_insert_new by apply lookup_delete_eq.
  unfold summary_total.
  rewrite (map_fold_delete_L _ _ s n m); [lia| |done].
  intros j1 j2 z1 z2 y _ _ _. cbv beta. lia.
Qed.

Lemma summary_loop_total (D : list Detection) (acc : gmap string Z) :
  summary_total
    (fold_left
       (λ summary det,
          let species := class_name det in
          match summary !! species with
          | Some n => <[species := n + 1]> summary
          | None => <[species := 1]> summary
          end) D acc)
  = summary_total acc + Z.of_nat (length D).
Proof.
  revert acc. induction D as [|d D IH]; intros acc; simpl; [lia|].
  rewrite IH. destruct (acc !! class_name d) as [n|] eqn:E.
  - rewrite (summary_total_insert_old _ _ n) by done. lia.
  - rewrite summary_total_insert_new by done. lia.
Qed.

(** X4. The counts of the summary add up to the number of detections: no
    detection is lost and none is counted twice. *)
Theorem detection_summary_total (D : list Detection) :
  summary_total (get_detection_summary D) = Z.of_nat (length D).
Proof.
  unfold get_detection_summary. rewrite summary_loop_total.
  unfold summary_total. by rewrite map_fold_empty.
Qed.

(** X5. The filter keeps exactly the detections whose species is in the
    list, in their order, and filtering twice is filtering by the species in
    both lists. *)
Theorem filter_by_species_spec (D : list Detection) (L L' : list string) :
  (∀ d, d ∈ filter_detections_by_species D L ↔ d ∈ D ∧ class_name d ∈ L) ∧
  filter_detections_by_species D L `sublist_of` D ∧
  filter_detections_by_species (filter_detections_by_species D L) L'
  = filter (λ d, class_name d ∈ L' ∧ class_name d ∈ L) D.
Proof.
  unfold filter_detections_by_species. split; [|split].
  - intros d. rewrite list_elem_of_filter. tauto.
  - apply sublist_filter.
  - apply list_filter_filter.
Qed.

(** X6. The summary of the filtered detections is the summary of all of
    them, restricted to the species of the list. *)
Theorem summary_of_filtered (D : list Detection) (L : list string) (s : string) :
  get_detection_summary (filter_detections_by_species D L) !! s =
  if decide (s ∈ L) then get_detection_summary D !! s else None.
Proof.
  unfold get_detection_summary. rewrite !summary_loop, lookup_empty.
  assert (H : count_species s (filter_detections_by_species D L) =
              if decide (s ∈ L) then count_species s D else 0%nat).
  { unfold count_species, filter_detections_by_species.
    rewrite list_filter_filter.
    destruct (decide (s ∈ L)) as [Hin|Hout].
    - f_equal. apply list_filter_iff. intros d. split; [tauto|].
      by intros <-.
    - induction D as [|d D IH]; [done|].
      rewrite filter_cons, decide_False; [exact IH|].
      intros [<- ?]. done. }
  rewrite H. by destruct (decide (s ∈ L)).
Qed.

(** ** The auto-snapshot gate *)

Lemma fge_trans (a b c : float) :
  fge a b = true → fge b c = true → fge a c = true.
Proof.
  unfold fge, SFleb.
  destruct a as [[]|[]| |[] ma ea], b as [[]|[]| |[] mb eb], c as [[]|[]| |[] mc ec];
    simpl; try done; cmp_cases.
Qed.

(** X7. [should_trigger_snapshot] never raises.  On detections whose
    confidences are numbers it answers [True] exactly when some detection
    has a confidence of at least the auto-snapshot threshold, as its
    docstring says, although it looks at the best detection only. *)
Theorem should_trigger_snapshot_any (D : list Detection) :
  Forall (λ d, is_nan (confidence d) = false) D →
  ∃ b, should_trigger_snapshot D = Returned b ∧
       (b = true ↔
        ∃ d, d ∈ D ∧ fge (confidence d) AUTO_SNAPSHOT_THRESHOLD = true).
Proof.
  intros Hnan. destruct D as [|d0 rest].
  - exists false. split; [done|]. split; [done|].
    intros (d & Hd & _). by apply elem_of_nil in Hd.
  - destruct (max_by_confidence_scan rest [d0] 0 d0) as (i & best & Hbest & Heq).
    + done.
    + split; [done|]. split.
      * intros d' ->%list_elem_of_singleton. apply fge_refl. by inversion Hnan.
      * intros j d' Hj. lia.
    + exists (fge (confidence best) AUTO_SNAPSHOT_THRESHOLD).
      split; [simpl; by rewrite Heq|].
      destruct Hbest as (Hi & Hmax & _). split.
      * intros Hb. exists best. split; [|done].
        eapply list_elem_of_lookup_2. exact Hi.
      * intros (d & Hd & Hge). eapply fge_trans; [|exact Hge]. by apply Hmax.
Qed.

(** ** Saving a snapshot *)

Section SnapshotStore.

Context {Image : Type}.
Context (jpeg : Image → Image).
Context (model : option (YOLO Image)).

Implicit Types disk : gmap string (file Image).

Lemma save_snapshot_unfold env image det source disk :
  save_snapshot jpeg env image (Some det) source disk =
  match py_int (fmul (confidence det) (float_of_Z 100)) with
  | Raised _ => (None, disk)
  | Returned n =>
      let p := snapshot_name (drop_last3 (now env)) (class_name det) n source in
      match imwrite_does env with
      | Written => (Some p, <[p := Jpeg (jpeg image)]> disk)
      | WrittenDamaged => (Some p, <[p := Damaged]> disk)
      | Refused => (Some p, disk)
      | ImwriteRaised _ => (None, disk)
      end
  end.
Proof.
  unfold save_snapshot, cv2_imwrite. simpl.
  destruct (py_int _) as [n|e]; simpl; [|done].
  by destruct (imwrite_does env).
Qed.

(** X8. When the percentage of the confidence is an integer [n] and
    [cv2.imwrite] writes the file, [save_snapshot] returns the path
    made of the timestamp cut to milliseconds, the species, [n] and the
    source tag; reading that path back gives the image as JPEG renders it,
    and every other path of the disk is as before. *)
Theorem save_snapshot_read_back env image det source disk n :
  py_int (fmul (confidence det) (float_of_Z 100)) = Returned n →
  imwrite_does env = Written →
  ∃ disk',
    save_snapshot jpeg env image (Some det) source disk
    = (Some (snapshot_name (drop_last3 (now env)) (class_name det) n source),
       disk') ∧
    cv2_imread (snapshot_name (drop_last3 (now env)) (class_name det) n source)
      disk' = Some (jpeg image) ∧
    ∀ q, q ≠ snapshot_name (drop_last3 (now env)) (class_name det) n source →
         disk' !! q = disk !! q.
Proof.
  intros Hn Hw. rewrite save_snapshot_unfold, Hn, Hw. simpl.
  eexists. split; [done|]. split.
  - unfold cv2_imread. by rewrite lookup_insert_eq.
  - intros q Hq. by rewrite lookup_insert_ne.
Qed.

(** X9. [save_snapshot] returns no path exactly when there is no
    detection, or the confidence times 100 is NaN or infinite, or
    [cv2.imwrite] raises; the disk is then as before.  A write that is
    refused without an error still returns a path. *)
Theorem save_snapshot_fails_iff env image detection source disk :
  ((save_snapshot jpeg env image detection source disk).1 = None ↔
   detection = None ∨
   (∃ det, detection = Some det ∧
           finite (fmul (confidence det) (float_of_Z 100)) = false) ∨
   (∃ e, imwrite_does env = ImwriteRaised e)) ∧
  ((save_snapshot jpeg env image detection source disk).1 = None →
   (save_snapshot jpeg env image detection source disk).2 = disk).
Proof.
  destruct detection as [det|].
  2: { split; [|done]. split; [by left|done]. }
  rewrite save_snapshot_unfold.
  destruct (finite (fmul (confidence det) (float_of_Z 100))) eqn:Hf.
  - destruct (py_int_finite _ Hf) as [n ->]. cbv zeta.
    destruct (imwrite_does env) eqn:Hw; cbn [fst snd];
      (split; [split|]); try done.
    + intros [?|[(d & [= <-] & ?)|(e & ?)]]; congruence.
    + intros [?|[(d & [= <-] & ?)|(e & ?)]]; congruence.
    + intros [?|[(d & [= <-] & ?)|(e & ?)]]; congruence.
    + intros _. right. right. by eexists.
  - destruct (py_int_not_finite _ Hf) as [e ->]. cbn [fst snd].
    split; [|done]. split; [|done]. intros _. right. left. by eexists.
Qed.

(** X10. Saving a snapshot under a name that is not on disk and deleting
    it again gives back the disk as it was, whatever [cv2.imwrite] did; the
    deletion answers [True] exactly when the save had put a file there. *)
Theorem save_then_delete env image detection source disk p disk1 :
  save_snapshot jpeg env image detection source disk = (Some p, disk1) →
  disk !! p = None →
  (delete_snapshot p disk1).2 = disk ∧
  ((delete_snapshot p disk1).1 = true ↔ is_Some (disk1 !! p)).
Proof.
  intros Hs Hfresh. rewrite delete_snapshot_unfold.
  destruct detection as [det|]; [|done].
  rewrite save_snapshot_unfold in Hs.
  destruct (py_int _) as [n|e]; [|done]. cbv zeta in Hs.
  destruct (imwrite_does env); [| | |done]; injection Hs as <- <-.
  - rewrite lookup_insert_eq. cbn [fst snd].
    split; [by apply delete_insert_id|]. split; eauto.
  - rewrite lookup_insert_eq. cbn [fst snd].
    split; [by apply delete_insert_id|]. split; eauto.
  - rewrite Hfresh. cbn [fst snd]. split; [done|]. split; [done|].
    by intros [? ?].
Qed.

(** ** The other ways through the verifier *)

(** X11. When Layer 1 has detections and the snapshot cannot be saved,
    because the confidence of the best one times 100 is NaN or infinite or
    because [cv2.imwrite] raises, the verifier rejects with 'Snapshot save
    failed', keeps the Layer-1 list in the result and leaves the disk as it
    was. *)
Theorem snapshot_save_failed_rejected env image disk l1 b1 :
  detect_objects model image LAYER1_CONFIDENCE = l1 →
  get_highest_confidence_detection l1 = Some b1 →
  finite (fmul (confidence b1) (float_of_Z 100)) = false ∨
  (∃ e, imwrite_does env = ImwriteRaised e) →
  verify_detection_2layer jpeg model env image disk
  = Returned (rejected l1 [] "Snapshot save failed", disk).
Proof.
  intros H1 Hb1 Hfail.
  destruct (highest_Some_cons _ _ Hb1) as (d & l' & ->).
  unfold verify_detection_2layer. rewrite H1, Hb1, save_snapshot_unfold.
  destruct Hfail as [Hf|[e He]].
  - by destruct (py_int_not_finite _ Hf) as [e ->].
  - rewrite He. by destruct (py_int _).
Qed.

(** X12. When the snapshot is saved under the path [p] but cannot be read
    back, because the file written is damaged or because the write was
    refused and [p] holds nothing readable, the verifier rejects with
    'Snapshot read failed'; afterwards nothing is at [p] and every other
    path is as before. *)
Theorem snapshot_read_failed_rejected env image disk l1 b1 n :
  detect_objects model image LAYER1_CONFIDENCE = l1 →
  get_highest_confidence_detection l1 = Some b1 →
  py_int (fmul (confidence b1) (float_of_Z 100)) = Returned n →
  imwrite_does env = WrittenDamaged ∨
  (imwrite_does env = Refused ∧
   cv2_imread
     (snapshot_name (drop_last3 (now env)) (class_name b1) n "verification")
     disk = None) →
  ∃ disk',
    verify_detection_2layer jpeg model env image disk
    = Returned (rejected l1 [] "Snapshot read failed", disk') ∧
    disk' !! snapshot_name (drop_last3 (now env)) (class_name b1) n
               "verification" = None ∧
    ∀ q, q ≠ snapshot_name (drop_last3 (now env)) (class_name b1) n
               "verification" →
         disk' !! q = disk !! q.
Proof.
  intros H1 Hb1 Hn Hw.
  destruct (highest_Some_cons _ _ Hb1) as (d & l' & ->).
  set (p := snapshot_name _ _ _ _) in *.
  assert (Hp : truthy_str (Some p) = Some p) by done.
  unfold verify_detection_2layer.
  rewrite H1, Hb1, save_snapshot_unfold, Hn. cbv zeta. fold p.
  destruct Hw as [Hw|[Hw Hr]]; rewrite Hw, Hp.
  - unfold cv2_imread at 1. rewrite lookup_insert_eq.
    destruct (delete_snapshot p (<[p:=Damaged]> disk)) as [b disk2] eqn:Ed.
    exists disk2. split; [done|].
    replace disk2 with (delete_snapshot p (<[p:=Damaged]> disk)).2
      by (by rewrite Ed).
    split; [apply delete_snapshot_absent|].
    intros q Hq. rewrite delete_snapshot_other by done.
    by rewrite lookup_insert_ne.
  - rewrite Hr.
    destruct (delete_snapshot p disk) as [b disk2] eqn:Ed.
    exists disk2. split; [done|].
    replace disk2 with (delete_snapshot p disk).2 by (by rewrite Ed).
    split; [apply delete_snapshot_absent|].
    intros q Hq. by rewrite delete_snapshot_other.
Qed.

(** X13. When the snapshot saved under [p] reads back and Layer 2 finds
    nothing on it, the verifier rejects with 'No Layer 2 detection', with
    the Layer-1 list and an empty Layer-2 list, and [p] is not on the disk
    that is returned. *)
Theorem no_layer2_detection_rejected env image disk l1 b1 p disk1 img2 :
  detect_objects model image LAYER1_CONFIDENCE = l1 →
  get_highest_confidence_detection l1 = Some b1 →
  save_snapshot jpeg env image (Some b1) "verification" disk = (Some p, disk1) →
  cv2_imread p disk1 = Some img2 →
  detect_objects model img2 LAYER2_CONFIDENCE = [] →
  ∃ disk',
    verify_detection_2layer jpeg model env image disk
    = Returned (rejected l1 [] "No Layer 2 detection", disk') ∧
    is_Some (disk1 !! p) ∧
    disk' !! p = None.
Proof.
  intros H1 Hb1 Hs Hr H2.
  destruct (save_snapshot_path _ _ _ _ _ _ _ _ Hs) as [Hp _].
  destruct (highest_Some_cons _ _ Hb1) as (d & l' & ->).
  unfold verify_detection_2layer.
  rewrite H1, Hb1, Hs, (truthy_str_path p Hp), Hr, H2.
  destruct (delete_snapshot p disk1) as [b disk2] eqn:Ed.
  exists disk2. split; [done|]. split; [by eapply cv2_imread_Some|].
  replace disk2 with (delete_snapshot p disk1).2 by (by rewrite Ed).
  apply delete_snapshot_absent.
Qed.

(** X14. An attempt changes the disk at the path of its snapshot at most;
    without a snapshot the disk is returned as it was, and so it is after a
    rejection when the name of the snapshot was not on disk before. *)
Theorem verify_disk_footprint env image disk :
  ∃ r disk',
    verify_detection_2layer jpeg model env image disk = Returned (r, disk') ∧
    match snapshot_saved jpeg model env image disk with
    | None => disk' = disk
    | Some p =>
        (∀ q, q ≠ p → disk' !! q = disk !! q) ∧
        (verified r = false → disk !! p = None → disk' = disk)
    end.
Proof.
  destruct (verify_returns jpeg model env image disk) as (r & disk' & Hv & Hp).
  exists r, disk'. split; [done|].
  destruct (verify_effect jpeg model env image disk r disk' Hp) as [_ Heff].
  destruct (snapshot_saved jpeg model env image disk) as [p|]; [|by destruct Heff].
  destruct Heff as [Hother Hcase]. split; [done|].
  intros Hrej Hfresh. apply map_eq. intros q.
  destruct (decide (q = p)) as [->|Hq]; [|by apply Hother].
  destruct Hcase as [(Hv' & _)|(_ & Hoff)]; congruence.
Qed.

(** X15. An accepted result can be checked against the disk: its snapshot
    path reads back to an image, its second list is what Layer 2 detects on
    that image, its first list is what Layer 1 detects on the input, and its
    best detection is made of the best detections of the two lists, which
    are of one species. *)
Theorem verified_result_rederivable env image disk r disk' :
  verify_detection_2layer jpeg model env image disk = Returned (r, disk') →
  verified r = true →
  ∃ p img2 b1 b2,
    snapshot_path r = Some p ∧
    cv2_imread p disk' = Some img2 ∧
    layer1_detections r = detect_objects model image LAYER1_CONFIDENCE ∧
    layer2_detections r = detect_objects model img2 LAYER2_CONFIDENCE ∧
    get_highest_confidence_detection (layer1_detections r) = Some b1 ∧
    get_highest_confidence_detection (layer2_detections r) = Some b2 ∧
    class_name b1 = class_name b2 ∧
    best_detection r =
      Some {| species := class_name b2;
              confidence_layer1 := confidence b1;
              confidence_layer2 := confidence b2;
              bbox_layer1 := bbox b1;
              bbox_layer2 := bbox b2 |}.
Proof.
  intros Hv Hacc.
  destruct (verify_returns jpeg model env image disk) as (r0 & disk0 & Hv0 & Hp).
  rewrite Hv in Hv0. injection Hv0 as <- <-.
  destruct Hp; try done.
  exists p, img2, b1, b2. simpl. subst. repeat split; done.
Qed.

End SnapshotStore.

(** ** The life cycle of the frame source *)

Section FrameSourceLifeCycle.

Context {Pixels : Type}.
Context (resample : Pixels → Z → Z → Pixels).

Implicit Types self : WebcamProcessor Pixels.

(** X16. After [stop] the source is not running and [read_frame] returns
    [(False, None)] without touching the state; stopping twice is stopping
    once.  [stop] keeps the frame counter and the FPS estimate, and a start
    that succeeds after a [stop] gives the state that it gives without the
    [stop]: the counter is not reset by a restart. *)
Theorem stop_is_final (t : float) self :
  is_running (stop self) = false ∧
  read_frame resample t (stop self) = Returned ((false, None), stop self) ∧
  stop (stop self) = stop self ∧
  frame_count (stop self) = frame_count self ∧
  fps (stop self) = fps self ∧
  ∀ c t', cap_isOpened c = true →
          start (Returned c) t' (stop self) = start (Returned c) t' self.
Proof.
  repeat split; try done.
  intros c t' Ho. unfold start. simpl. by rewrite Ho.
Qed.

(** X17. [start] returns [True] exactly when the capture handle is created
    and reports itself open.  The source is then running, its sample time is
    the time of the start, its frame counter is kept, and the handle has been
    asked for width 640, height 480 and 30 frames per second, in this order,
    when the source is a device index, and for nothing when it is a URL. *)
Theorem start_succeeds_iff (device : outcome (VideoCapture Pixels)) (t : float)
    self :
  ((start device t self).1 = true ↔
   ∃ c, device = Returned c ∧ cap_isOpened c = true) ∧
  ((start device t self).1 = true →
   let self' := (start device t self).2 in
   is_running self' = true ∧
   last_time self' = t ∧
   frame_count self' = frame_count self ∧
   ∃ c c', device = Returned c ∧ cap self' = Some c' ∧
           pending c' = pending c ∧
           props c' =
             props c ++
             match camera_index self with
             | inl _ => [("CAP_PROP_FRAME_WIDTH", 640);
                         ("CAP_PROP_FRAME_HEIGHT", 480);
                         ("CAP_PROP_FPS", 30)]
             | inr _ => []
             end).
Proof.
  unfold start. destruct device as [c|e]; simpl.
  2: { split; [|done]. split; [done|]. by intros (c & ? & _). }
  unfold cap_isOpened. destruct (opened c) eqn:Ho; simpl.
  - split; [split; eauto|]. intros _. unfold is_running. simpl.
    destruct (camera_index self) as [i|url]; simpl.
    + split; [exact Ho|]. repeat split; try done.
      exists c. eexists. repeat split; try done. simpl.
      by rewrite <- !app_assoc.
    + split; [exact Ho|]. repeat split; try done.
      exists c, c. repeat split; try done. by rewrite app_nil_r.
  - split; [|done]. split; [done|]. intros (c' & [= <-] & ?). congruence.
Qed.

Lemma is_running_cap self :
  is_running self = true →
  running self = true ∧ ∃ c, cap self = Some c ∧ opened c = true.
Proof.
  unfold is_running, cap_isOpened.
  destruct (running self); [|done].
  destruct (cap self) as [c|]; [|done]. simpl. eauto.
Qed.

(** X18. A read that fails on a running source returns [(False, None)] and
    leaves the source running, with its frame counter, FPS estimate and
    sample time as they were: the handle is not closed. *)
Theorem read_failure_keeps_running (t : float) self c c' :
  is_running self = true →
  cap self = Some c →
  cap_read c = (None, c') →
  ∃ self',
    read_frame resample t self = Returned ((false, None), self') ∧
    is_running self' = true ∧
    frame_count self' = frame_count self ∧
    fps self' = fps self ∧
    last_time self' = last_time self.
Proof.
  intros Hrun Hcap Hread.
  destruct (is_running_cap self Hrun) as (Hr & c0 & Hc0 & Ho).
  assert (c0 = c) as -> by congruence.
  unfold read_frame. rewrite Hrun, Hcap. simpl. rewrite Hread.
  eexists. split; [done|]. unfold is_running. simpl. rewrite Hr. simpl.
  unfold cap_read in Hread. rewrite Ho in Hread.
  destruct (pending c) as [|[f|] rest];
    [injection Hread as <-|discriminate Hread|injection Hread as <-];
    repeat split; done.
Qed.

Lemma fsub_self (s : bool) (m : positive) (e : Z) :
  fsub (S754_finite s m e) (S754_finite s m e) = S754_zero false.
Proof.
  unfold fsub, SFsub. rewrite Z.min_id. unfold shl_align.
  rewrite Z.sub_diag. simpl. done.
Qed.

(** X19. [read_frame] raises only on a running source, when a frame has
    been read, the frame counter reaches a multiple of 10 and the clock minus
    the last sample time is zero; the error is then [ZeroDivisionError].
    This is the case when the clock reads the very value of the last
    sample. *)
Theorem read_frame_raises (t : float) self (e : exception) :
  (read_frame resample t self = Raised e →
   e = ZeroDivisionError ∧
   is_running self = true ∧
   (frame_count self + 1) mod 10 = 0 ∧
   (∃ z, fsub t (last_time self) = S754_zero z) ∧
   ∃ c frame c', cap self = Some c ∧ cap_read c = (Some frame, c')) ∧
  (∀ c frame c' s m ex,
     is_running self = true →
     cap self = Some c →
     cap_read c = (Some frame, c') →
     (frame_count self + 1) mod 10 = 0 →
     last_time self = S754_finite s m ex →
     t = last_time self →
     read_frame resample t self = Raised ZeroDivisionError).
Proof.
  split.
  - unfold read_frame. destruct (is_running self) eqn:Hrun; simpl; [|done].
    destruct (is_running_cap self Hrun) as (_ & c & Hc & _). rewrite Hc. simpl.
    destruct (cap_read c) as [[frame|] c'] eqn:Hread; [|done].
    destruct ((frame_count self + 1) mod 10 =? 0) eqn:Hmod; [|done].
    unfold py_truediv.
    destruct (fsub t (last_time self)) as [z| | |] eqn:Hsub; simpl; try done.
    intros [= <-]. repeat split; try done; eauto.
    by apply Z.eqb_eq.
  - intros c frame c' s m ex Hrun Hcap Hread Hmod Hlast ->.
    unfold read_frame. rewrite Hrun, Hcap. simpl. rewrite Hread.
    apply Z.eqb_eq in Hmod. rewrite Hmod, Hlast, fsub_self. done.
Qed.


(** ** Reading frames in a loop *)

Lemma read_frame_counts (t : float) self r self' :
  read_frame resample t self = Returned (r, self') →
  (r = (false, None) ∧ frame_count self' = frame_count self) ∨
  (∃ frame, r = (true, Some frame) ∧ frame_count self' = frame_count self + 1).
Proof.
  unfold read_frame. destruct (is_running self); simpl.
  2: { intros [= <- <-]. by left. }
  destruct (cap self) as [c|]; simpl; [|done].
  destruct (cap_read c) as [[frame|] c'].
  2: { intros [= <- <-]. by left. }
  destruct (_ =? 0).
  - destruct (py_truediv _ _); simpl; [|done]. intros [= <- <-]. right. eauto.
  - intros [= <- <-]. right. eauto.
Qed.

(** X20. The loop of reads adds to the frame counter the number of frames
    it returns, and returns no more frames than it has turns. *)
Theorem read_frames_counts (ts : list float) self frames self' :
  read_frames resample ts self = Returned (frames, self') →
  frame_count self' = frame_count self + Z.of_nat (length frames) ∧
  (length frames ≤ length ts)%nat.
Proof.
  revert self frames self'.
  induction ts as [|t ts IH]; intros self frames self'; simpl.
  { intros [= <- <-]. simpl. lia. }
  destruct (is_running self); simpl.
  2: { intros [= <- <-]. simpl. lia. }
  destruct (read_frame resample t self) as [[[ok fr] s1]|e] eqn:Hr; simpl;
    [|done].
  apply read_frame_counts in Hr as [[[= -> ->] Hc]|(f & [= -> ->] & Hc)].
  { intros [= <- <-]. simpl. lia. }
  destruct (read_frames resample ts s1) as [[fs s2]|e] eqn:Hrest; simpl;
    [|done].
  intros [= <- <-]. destruct (IH _ _ _ Hrest) as [Hc' Hl]. simpl. lia.
Qed.


(** One read of an available frame, away from a multiple of 10. *)
Lemma read_frame_between_samples (t : float) self c frame rest :
  is_running self = true →
  cap self = Some c →
  pending c = Some frame :: rest →
  (frame_count self + 1) mod 10 ≠ 0 →
  ∃ out self' c',
    read_frame resample t self = Returned ((true, Some out), self') ∧
    is_running self' = true ∧
    cap self' = Some c' ∧
    pending c' = rest ∧
    frame_count self' = frame_count self + 1 ∧
    fps self' = fps self ∧
    last_time self' = last_time self.
Proof.
  intros Hrun Hcap Hpend Hmod.
  destruct (is_running_cap self Hrun) as (Hr & c0 & Hc0 & Ho).
  assert (c0 = c) as -> by congruence.
  unfold read_frame. rewrite Hrun, Hcap. simpl.
  unfold cap_read. rewrite Ho, Hpend.
  apply Z.eqb_neq in Hmod. rewrite Hmod.
  eexists _, _, _. split; [done|]. unfold is_running. simpl.
  rewrite Hr. done.
Qed.

(** One read of an available frame, at a multiple of 10. *)
Lemma read_frame_at_sample (t : float) self c frame rest :
  is_running self = true →
  cap self = Some c →
  pending c = Some frame :: rest →
  (frame_count self + 1) mod 10 = 0 →
  (∀ z, fsub t (last_time self) ≠ S754_zero z) →
  ∃ out self',
    read_frame resample t self = Returned ((true, Some out), self') ∧
    frame_count self' = frame_count self + 1 ∧
    fps self' = fdiv (float_of_Z 10) (fsub t (last_time self)) ∧
    last_time self' = t.
Proof.
  intros Hrun Hcap Hpend Hmod Hclock.
  destruct (is_running_cap self Hrun) as (Hr & c0 & Hc0 & Ho).
  assert (c0 = c) as -> by congruence.
  unfold read_frame. rewrite Hrun, Hcap. simpl.
  unfold cap_read. rewrite Ho, Hpend.
  apply Z.eqb_eq in Hmod. rewrite Hmod.
  unfold py_truediv.
  destruct (fsub t (last_time self)) as [z| | |] eqn:Hsub;
    [by destruct (Hclock z)|..]; simpl; eexists _, _; done.
Qed.

Lemma read_frames_to_sample (early : list float) (t : float) :
  ∀ self c frames rest,
    is_running self = true →
    cap self = Some c →
    pending c = (Some <$> frames) ++ rest →
    length frames = S (length early) →
    (∀ j, 1 ≤ j ≤ Z.of_nat (length early) → (frame_count self + j) mod 10 ≠ 0) →
    (frame_count self + Z.of_nat (length early) + 1) mod 10 = 0 →
    (∀ z, fsub t (last_time self) ≠ S754_zero z) →
    ∃ out self',
      read_frames resample (early ++ [t]) self = Returned (out, self') ∧
      length out = S (length early) ∧
      frame_count self' = frame_count self + Z.of_nat (length early) + 1 ∧
      fps self' = fdiv (float_of_Z 10) (fsub t (last_time self)) ∧
      last_time self' = t.
Proof.
  induction early as [|t0 early IH];
    intros self c frames rest Hrun Hcap Hpend Hlen Hbetween Hsample Hclock.
  - destruct frames as [|frame [|? ?]]; try done. simpl in *.
    destruct (read_frame_at_sample t self c frame rest)
      as (out & self' & Hread & Hc & Hf & Hl); try done.
    { by replace (frame_count self + 1) with (frame_count self + 0 + 1) by lia. }
    rewrite Hrun, Hread. simpl.
    eexists _, _. split; [done|]. simpl. repeat split; try done. lia.
  - destruct frames as [|frame frames]; [done|]. simpl in Hpend, Hlen.
    destruct (read_frame_between_samples t0 self c frame
                ((Some <$> frames) ++ rest))
      as (out & s1 & c1 & Hread & Hrun1 & Hcap1 & Hpend1 & Hc1 & Hf1 & Hl1);
      try done.
    { apply Hbetween. simpl. lia. }
    destruct (IH s1 c1 frames rest) as (outs & s2 & Hrest & Hlen2 & Hc2 & Hf2 & Hl2);
      try done.
    + lia.
    + intros j Hj. rewrite Hc1.
      replace (frame_count self + 1 + j) with (frame_count self + (j + 1)) by lia.
      apply Hbetween. simpl. lia.
    + rewrite Hc1. rewrite <- Hsample. f_equal. simpl. lia.
    + by rewrite Hl1.
    + simpl. rewrite Hrun, Hread. simpl. rewrite Hrest. simpl.
      eexists _, _. split; [done|]. simpl. rewrite Hlen2.
      repeat split; try done.
      * rewrite Hc2, Hc1. lia.
      * by rewrite Hf2, Hl1.
Qed.

(** X21. On a running source whose frame counter is a multiple of 10 and
    whose handle has ten frames to deliver, ten turns of the loop of reads
    return ten frames and leave as FPS estimate 10 divided by the clock of
    the tenth read minus the last sample time, provided this difference is
    not zero; the tenth read becomes the sample time. *)
Theorem fps_after_ten_frames (early : list float) (t : float) self c frames rest :
  is_running self = true →
  cap self = Some c →
  pending c = (Some <$> frames) ++ rest →
  length frames = 10%nat →
  length early = 9%nat →
  frame_count self mod 10 = 0 →
  (∀ z, fsub t (last_time self) ≠ S754_zero z) →
  ∃ out self',
    read_frames resample (early ++ [t]) self = Returned (out, self') ∧
    length out = 10%nat ∧
    frame_count self' = frame_count self + 10 ∧
    get_fps self' = fdiv (float_of_Z 10) (fsub t (last_time self)) ∧
    last_time self' = t.
Proof.
  intros Hrun Hcap Hpend Hlen Hearly Hmod Hclock.
  destruct (read_frames_to_sample early t self c frames rest)
    as (out & self' & Hread & Hl & Hc & Hf & Ht); try done.
  - by rewrite Hearly.
  - intros j Hj. rewrite Hearly in Hj. simpl in Hj.
    intros Hj0. apply Z.mod_divide in Hmod, Hj0; try lia.
    destruct Hmod as [a Ha], Hj0 as [b Hb]. lia.
  - rewrite Hearly. simpl.
    apply Z.mod_divide in Hmod; [|lia]. destruct Hmod as [a Ha].
    apply Z.mod_divide; [lia|]. exists (a + 1). lia.
  - exists out, self'. rewrite Hearly in Hl, Hc. simpl in Hc.
    repeat split; try done. lia.
Qed.

End FrameSourceLifeCycle.

(** ** Drawing and processing a frame *)

Section DrawingProperties.

Context {Pixels : Type}.
Context (rectangle : Pixels → Z * Z → Z * Z → Z * Z * Z → Z → Pixels).
Context (putText : Pixels → string → Z * Z → Z * Z * Z → Pixels).
Context (getTextSize : string → (Z * Z) * Z).
Context (format_percent : float → string).
Context (model : option (YOLO (Frame Pixels))).

Lemma draw_boxes_shape (image : Frame Pixels) (detections : list Detection)
    (show_confidence : bool) :
  shape (draw_boxes rectangle putText getTextSize format_percent image
           detections show_confidence) = shape image.
Proof.
  unfold draw_boxes. revert image.
  induction detections as [|det detections IH]; intros image; [done|].
  simpl. rewrite IH.
  destruct (bbox det) as [[[x1 y1] x2] y2].
  by destruct (getTextSize _) as [[w h] b].
Qed.

(** X22. [process_frame] returns a frame of the dimensions of its input.
    Its detections are those of [detect_objects] on the frame at the given
    threshold when detection is enabled and the source holds a model, and
    none otherwise; when there are none, the frame returned is the input
    frame, unmarked. *)
Theorem process_frame_result (self : WebcamProcessor Pixels)
    (frame : Frame Pixels) (enable_detection : bool) (conf_threshold : float) :
  let result :=
    process_frame rectangle putText getTextSize format_percent model self frame
      enable_detection conf_threshold in
  shape result.1 = shape frame ∧
  result.2 =
    (if enable_detection && bool_decide (wp_model self ≠ None)
     then detect_objects model frame conf_threshold else []) ∧
  (result.2 = [] → result.1 = frame).
Proof.
  unfold process_frame. destruct enable_detection; simpl; [|done].
  destruct (wp_model self) as [m|]; simpl; [|done].
  split; [apply draw_boxes_shape|]. split; [done|].
  by intros ->.
Qed.

End DrawingProperties.

(** ** What the pages save of an accepted result *)

Lemma dict_get_set (k k' : string) (v : Detection) (d : list (string * Detection)) :
  dict_get k' (dict_set k v d) = if decide (k = k') then Some v else dict_get k' d.
Proof.
  induction d as [|[k0 v0] d IH]; simpl.
  - by destruct (decide (k = k')).
  - destruct (decide (k0 = k)) as [->|Hne]; simpl.
    + by destruct (decide (k = k')).
    + rewrite IH. destruct (decide (k0 = k')) as [->|]; [|done].
      by rewrite decide_False.
Qed.

Lemma dict_get_keys (k : string) (d : list (string * Detection)) :
  dict_get k d = None ↔ k ∉ d.*1.
Proof.
  induction d as [|[k0 v0] d IH]; simpl.
  - split; [intros _; apply not_elem_of_nil|done].
  - rewrite not_elem_of_cons. destruct (decide (k0 = k)) as [->|Hne].
    + split; [done|]. by intros [? _].
    + rewrite IH. split; [by intros ?; split|by intros [_ ?]].
Qed.

Lemma dict_set_keys (k : string) (v : Detection) (d : list (string * Detection)) :
  (dict_set k v d).*1 = if decide (k ∈ d.*1) then d.*1 else d.*1 ++ [k].
Proof.
  induction d as [|[k0 v0] d IH].
  - rewrite decide_False; [done|]. apply not_elem_of_nil.
  - cbn [dict_set]. destruct (decide (k0 = k)) as [->|Hne].
    + rewrite decide_True; [done|]. rewrite fmap_cons. by left.
    + rewrite !fmap_cons, IH. cbn [fst].
      destruct (decide (k ∈ d.*1)) as [Hin|Hout].
      * rewrite decide_True; [done|]. by right.
      * rewrite decide_False; [done|]. rewrite not_elem_of_cons. by split.
Qed.

Lemma dict_set_NoDup (k : string) (v : Detection) (d : list (string * Detection)) :
  NoDup d.*1 → NoDup (dict_set k v d).*1.
Proof.
  intros Hd. rewrite dict_set_keys. destruct (decide (k ∈ d.*1)); [done|].
  apply NoDup_app. split; [done|]. split.
  - intros x Hx ->%list_elem_of_singleton. done.
  - apply NoDup_singleton.
Qed.

(** The loop that fills [detected_species], from any dictionary. *)
Lemma detected_species_loop (l : list Detection) (acc : list (string * Detection))
    (s : string) :
  dict_get s
    (fold_left
       (λ detected_species det,
          let species := class_name det in
          match dict_get species detected_species with
          | None => dict_set species det detected_species
          | Some current =>
              if fgt (confidence det) (confidence current)
              then dict_set species det detected_species
              else detected_species
          end) l acc)
  = match dict_get s acc with
    | None => get_highest_confidence_detection (filter (λ d, class_name d = s) l)
    | Some current =>
        Some (max_by_confidence current (filter (λ d, class_name d = s) l))
    end.
Proof.
  revert acc. induction l as [|det l IH]; intros acc; simpl.
  - by destruct (dict_get s acc).
  - rewrite IH, filter_cons. clear IH.
    destruct (decide (class_name det = s)) as [<-|Hne].
    + destruct (dict_get (class_name det) acc) as [cur|] eqn:E.
      * unfold max_by_confidence at 2. simpl.
        destruct (fgt (confidence det) (confidence cur)).
        -- rewrite dict_get_set, decide_True by done. done.
        -- by rewrite E.
      * rewrite dict_get_set, decide_True by done. done.
    + destruct (dict_get (class_name det) acc) as [cur|] eqn:E.
      * destruct (fgt (confidence det) (confidence cur)); [|done].
        by rewrite dict_get_set, decide_False.
      * by rewrite dict_get_set, decide_False.
Qed.

Lemma detected_species_loop_NoDup (l : list Detection)
    (acc : list (string * Detection)) :
  NoDup acc.*1 →
  NoDup (fold_left
           (λ detected_species det,
              let species := class_name det in
              match dict_get species detected_species with
              | None => dict_set species det detected_species
              | Some current =>
                  if fgt (confidence det) (confidence current)
                  then dict_set species det detected_species
                  else detected_species
              end) l acc).*1.
Proof.
  revert acc. induction l as [|det l IH]; intros acc Hacc; [done|].
  simpl. apply IH.
  destruct (dict_get (class_name det) acc) as [cur|].
  - destruct (fgt _ _); [by apply dict_set_NoDup|done].
  - by apply dict_set_NoDup.
Qed.

(** X23. The dictionary that the pages build of the Layer-2 detections has
    every species once, and gives each species what the highest-confidence
    selector gives on the detections of that species: its first detection of
    highest confidence, and no entry when the species does not occur. *)
Theorem detected_species_best_per_species (layer2 : list Detection) (s : string) :
  NoDup (detected_species layer2).*1 ∧
  dict_get s (detected_species layer2)
  = get_highest_confidence_detection (filter (λ d, class_name d = s) layer2).
Proof.
  split.
  - apply detected_species_loop_NoDup. apply NoDup_nil_2.
  - unfold detected_species. by rewrite detected_species_loop.
Qed.

Lemma highest_is_maximal (l : list Detection) (b : Detection) :
  Forall (λ d, is_nan (confidence d) = false) l →
  get_highest_confidence_detection l = Some b →
  b ∈ l ∧ ∀ d, d ∈ l → fge (confidence b) (confidence d) = true.
Proof.
  intros Hnan Hb. destruct l as [|d0 rest]; [done|].
  destruct (max_by_confidence_scan rest [d0] 0 d0) as (i & best & Hbest & Heq).
  - done.
  - split; [done|]. split.
    + intros d' ->%list_elem_of_singleton. apply fge_refl. by inversion Hnan.
    + intros j d' Hj. lia.
  - simpl in Hb. injection Hb as <-. rewrite Heq.
    destruct Hbest as (Hi & Hmax & _). split; [|done].
    eapply list_elem_of_lookup_2. exact Hi.
Qed.

(** X24. For the species of the best Layer-1 detection, the Layer-1
    confidence that the pages save with the record is that of the first
    Layer-1 detection of the species, not the fallback; it is at most the
    confidence of the best Layer-1 detection, which is the one the result
    carries in [best_detection]. *)
Theorem layer1_conf_of_best_species (layer1 : list Detection) (b1 det : Detection) :
  Forall (λ d, is_nan (confidence d) = false) layer1 →
  get_highest_confidence_detection layer1 = Some b1 →
  ∃ d rest,
    filter (λ d, class_name d = class_name b1) layer1 = d :: rest ∧
    layer1_conf layer1 (class_name b1) det = confidence d ∧
    fge (confidence b1) (layer1_conf layer1 (class_name b1) det) = true.
Proof.
  intros Hnan Hb. destruct (highest_is_maximal _ _ Hnan Hb) as [Hin Hmax].
  unfold layer1_conf.
  destruct (filter (λ d, class_name d = class_name b1) layer1) as [|d rest] eqn:E.
  - assert (b1 ∈ filter (λ d, class_name d = class_name b1) layer1) as Hb1.
    { by apply list_elem_of_filter. }
    rewrite E in Hb1. by apply elem_of_nil in Hb1.
  - exists d, rest. split; [done|]. split; [done|]. apply Hmax.
    assert (d ∈ filter (λ d, class_name d = class_name b1) layer1) as Hd.
    { rewrite E. by left. }
    by apply list_elem_of_filter in Hd as [_ ?].
Qed.

(** ** The video loop *)

Lemma last_nonempty_default {A : Type} (l : list A) (a d d' : A) :
  List.last (a :: l) d = List.last (a :: l) d'.
Proof.
  revert a. induction l as [|b l IH]; intros a; [done|].
  change (List.last (b :: l) d = List.last (b :: l) d'). apply IH.
Qed.

(** X25. In the video loop a verification is attempted only when
    detection is enabled, on a turn whose count is a multiple of 2, for
    detections that pass the auto-snapshot gate.  With a stream source each
    attempt comes at least the cool-down of 5 seconds, as the float
    difference of the clock readings, after the attempt before it, the first
    after the time the loop starts with.  With a device source there is no
    cool-down: every such turn attempts a verification. *)
Theorem loop_attempts_spaced (url : string) (enable_detection : bool)
    (turns : list (list Detection * float)) (st : VideoLoop) :
  (∃ attempts st',
     loop_turns (inr url) enable_detection turns st = Returned (attempts, st') ∧
     spaced (last_snapshot_time st) attempts ∧
     last_snapshot_time st' = List.last attempts (last_snapshot_time st) ∧
     frame_skip_counter st' = frame_skip_counter st + Z.of_nat (length turns)) ∧
  (∀ camera_index detections t st1,
     loop_turn camera_index enable_detection detections t st
     = Returned (true, st1) →
     enable_detection = true ∧
     (frame_skip_counter st + 1) mod 2 = 0 ∧
     should_trigger_snapshot detections = Returned true ∧
     last_snapshot_time st1 = t) ∧
  (∀ (i : Z) detections t,
     enable_detection = true →
     (frame_skip_counter st + 1) mod 2 = 0 →
     should_trigger_snapshot detections = Returned true →
     ∃ st1, loop_turn (inl i) enable_detection detections t st
            = Returned (true, st1)).
Proof.
  split; [|split].
  - revert st. induction turns as [|[detections t] turns IH]; intros st.
    { exists [], st. simpl. repeat split; try done. lia. }
    simpl. unfold loop_turn.
    set (skip := (false, {| frame_skip_counter := frame_skip_counter st + 1;
                            last_snapshot_time := last_snapshot_time st |})).
    assert (Hskip :
      ∃ attempts st',
        (res ← Returned skip;
         let '(attempt, st0) := res in
         '(attempts, st1) ← loop_turns (inr url) enable_detection turns st0;
         mret (if attempt : bool then t :: attempts else attempts, st1))
        = Returned (attempts, st') ∧
        spaced (last_snapshot_time st) attempts ∧
        last_snapshot_time st' = List.last attempts (last_snapshot_time st) ∧
        frame_skip_counter st' =
          frame_skip_counter st + Z.of_nat (S (length turns))).
    { destruct (IH {| frame_skip_counter := frame_skip_counter st + 1;
                      last_snapshot_time := last_snapshot_time st |})
        as (attempts & st' & Hrun & Hsp & Hlast & Hcount).
      exists attempts, st'. simpl in *. rewrite Hrun. simpl.
      repeat split; try done; lia. }
    destruct (enable_detection && _); [|exact Hskip].
    destruct detections as [|d ds]; [exact Hskip|].
    unfold should_trigger_snapshot. simpl.
    destruct (fge (confidence (max_by_confidence d ds)) AUTO_SNAPSHOT_THRESHOLD);
      [|exact Hskip].
    destruct (fge (fsub t (last_snapshot_time st)) SNAPSHOT_COOLDOWN) eqn:Hcool;
      [|exact Hskip].
    destruct (IH {| frame_skip_counter := frame_skip_counter st + 1;
                    last_snapshot_time := t |})
      as (attempts & st' & Hrun & Hsp & Hlast & Hcount).
    exists (t :: attempts), st'. simpl in *. rewrite Hrun. simpl.
    repeat split; try done; try lia.
    rewrite Hlast. destruct attempts as [|a l]; [done|].
    apply last_nonempty_default.
  - intros camera_index detections t st1. unfold loop_turn.
    destruct enable_detection; simpl; [|done].
    destruct (_ =? 0) eqn:Hmod; [|done]. apply Z.eqb_eq in Hmod.
    destruct detections as [|d ds]; [done|].
    unfold should_trigger_snapshot. simpl.
    destruct (fge (confidence (max_by_confidence d ds)) AUTO_SNAPSHOT_THRESHOLD);
      [|done].
    destruct (negb _ || _); [|done].
    by intros [= <-].
  - intros i detections t -> Hmod Htr. unfold loop_turn.
    apply Z.eqb_eq in Hmod. unfold PROCESS_EVERY_N_FRAMES. rewrite Hmod. simpl.
    destruct detections as [|d ds]; [done|]. rewrite Htr. simpl. eauto.
Qed.

(** ** The cool-down of alerts *)

Lemma bson_datetime_cut (t : Z) :
  bson_datetime t ≤ t < bson_datetime t + 1000.
Proof.
  unfold bson_datetime.
  pose proof (Z.div_mod t 1000). pose proof (Z.mod_pos_bound t 1000). lia.
Qed.

Lemma find_one_updated (species user_id : string) (now : Z)
    (collection : list AlertRecord) :
  ∃ r, find_one species user_id (update_one_upsert species user_id now collection)
       = Some r ∧ last_alert_time r = Some (bson_datetime now).
Proof.
  unfold find_one. induction collection as [|r0 collection IH]; simpl.
  - rewrite filter_cons, decide_True by done. eauto.
  - destruct (decide (alert_matches species user_id r0)) as [Hm|Hm].
    + rewrite filter_cons, decide_True by done. eauto.
    + by rewrite filter_cons, decide_False.
Qed.

Lemma find_one_other (species user_id species' user_id' : string) (now : Z)
    (collection : list AlertRecord) :
  (species', user_id') ≠ (species, user_id) →
  find_one species' user_id' (update_one_upsert species user_id now collection)
  = find_one species' user_id' collection.
Proof.
  intros Hne. unfold find_one.
  assert (Hnew : ∀ r, alert_matches species user_id r →
                      ¬ alert_matches species' user_id' r).
  { intros r [<- <-] [? ?]. apply Hne. congruence. }
  induction collection as [|r0 collection IH]; simpl.
  - rewrite filter_cons, decide_False; [done|]. by apply Hnew.
  - destruct (decide (alert_matches species user_id r0)) as [Hm|Hm].
    + rewrite !filter_cons, !decide_False; [done|by apply Hnew|].
      intros [? ?]. by apply (Hnew r0).
    + rewrite !filter_cons.
      destruct (decide (alert_matches species' user_id' r0)); [done|apply IH].
Qed.

(** X26. The time of an alert is recorded cut to the millisecond.  After
    an alert has been recorded at [t], the check for the same species and
    user at [t'] allows an alert exactly when [t'] is at least 5 seconds
    after the recorded time: always when [t'] is 5 seconds or more after
    [t], never when it is 4.999 seconds or less after [t], and in between
    according to the microseconds of [t] that were cut off.  The checks for
    every other species or user answer as before.  Without a database, or
    when the query raises, the check allows the alert. *)
Theorem alert_cooldown_round_trip (collection : list AlertRecord)
    (species user_id : string) (t t' : Z) :
  (∃ collection',
     update_alert_timestamp (Some collection) None species user_id t
     = Some collection' ∧
     check_alert_cooldown (Some collection') None species user_id t'
     = bool_decide (bson_datetime t + 5000000 ≤ t') ∧
     (t + 5000000 ≤ t' →
      check_alert_cooldown (Some collection') None species user_id t' = true) ∧
     (t' ≤ t + 4999000 →
      check_alert_cooldown (Some collection') None species user_id t' = false) ∧
     ∀ species' user_id',
       (species', user_id') ≠ (species, user_id) →
       check_alert_cooldown (Some collection') None species' user_id' t'
       = check_alert_cooldown (Some collection) None species' user_id' t') ∧
  (∀ fault, check_alert_cooldown None fault species user_id t' = true) ∧
  (∀ e, check_alert_cooldown (Some collection) (Some e) species user_id t' = true).
Proof.
  split; [|done].
  exists (update_one_upsert species user_id t collection). split; [done|].
  assert (Hcheck :
    check_alert_cooldown
      (Some (update_one_upsert species user_id t collection)) None
      species user_id t'
    = bool_decide (bson_datetime t + 5000000 ≤ t')).
  { unfold check_alert_cooldown. simpl.
    destruct (find_one_updated species user_id t collection) as (r & -> & ->).
    simpl. unfold timedelta_seconds, ALERT_COOLDOWN_SECONDS.
    case_bool_decide; [apply Z.leb_le|apply Z.leb_gt]; lia. }
  pose proof (bson_datetime_cut t) as Hcut.
  rewrite Hcheck. split; [done|]. split; [|split].
  - intros Hlate. apply bool_decide_eq_true. lia.
  - intros Hearly. apply bool_decide_eq_false. lia.
  - intros species' user_id' Hne. unfold check_alert_cooldown. simpl.
    by rewrite find_one_other.
Qed.

(** ** Further instances *)

Lemma detect_objects_all_or_nothing_witness :
  Forall2
    (λ b d,
       confidence d = conf b ∧
       py_int (cls b) = Returned (class_id d) ∧
       class_name d =
         default ("Class_" +:+ pretty (class_id d)) (CLASS_NAMES !! class_id d))
    (concat [[sample_box 3 60]])
    (detect_objects (Some sample_model) 1%nat LAYER1_CONFIDENCE) ∧
  detect_objects (Some glitch_model) 1%nat LAYER1_CONFIDENCE = [].
Proof.
  split.
  - apply (detect_objects_all_or_nothing sample_model 1%nat LAYER1_CONFIDENCE
             [[sample_box 3 60]]).
    + vm_compute. reflexivity.
    + repeat constructor.
  - apply (detect_objects_all_or_nothing glitch_model 1%nat LAYER1_CONFIDENCE
             [[sample_box 3 60; nan_box]]).
    + reflexivity.
    + right. left. reflexivity.
Defined.

Lemma detect_objects_class_name_witness :
  (∀ id name, CLASS_NAMES !! id = Some name →
              (class_name (sample_detection "Tiger" 3 60) = name ↔
               class_id (sample_detection "Tiger" 3 60) = id)) ∧
  (CLASS_NAMES !! class_id (sample_detection "Tiger" 3 60) = None →
   class_name (sample_detection "Tiger" 3 60)
   = "Class_" +:+ pretty (class_id (sample_detection "Tiger" 3 60))).
Proof.
  apply (detect_objects_class_name (Some sample_model) 1%nat LAYER1_CONFIDENCE
           (sample_detection "Tiger" 3 60)).
  vm_compute. left.
Defined.

Lemma should_trigger_snapshot_any_witness :
  ∃ b, should_trigger_snapshot
         [sample_detection "Bear" 0 50; sample_detection "Tiger" 3 80]
       = Returned b ∧
       (b = true ↔
        ∃ d, d ∈ [sample_detection "Bear" 0 50; sample_detection "Tiger" 3 80] ∧
             fge (confidence d) AUTO_SNAPSHOT_THRESHOLD = true).
Proof.
  apply (should_trigger_snapshot_any
           [sample_detection "Bear" 0 50; sample_detection "Tiger" 3 80]).
  repeat constructor.
Defined.

Lemma save_snapshot_read_back_witness :
  ∃ disk' : gmap string (file nat),
    save_snapshot sample_jpeg sample_env 1%nat
      (Some (sample_detection "Tiger" 3 60)) "upload" ∅
    = (Some (snapshot_name (drop_last3 (now sample_env)) "Tiger" 60 "upload"),
       disk') ∧
    cv2_imread (snapshot_name (drop_last3 (now sample_env)) "Tiger" 60 "upload")
      disk' = Some (sample_jpeg 1%nat) ∧
    ∀ q, q ≠ snapshot_name (drop_last3 (now sample_env)) "Tiger" 60 "upload" →
         disk' !! q = (∅ : gmap string (file nat)) !! q.
Proof.
  apply (save_snapshot_read_back sample_jpeg sample_env 1%nat
           (sample_detection "Tiger" 3 60) "upload" ∅ 60).
  - vm_compute. reflexivity.
  - reflexivity.
Defined.

Example snapshot_name_sample :
  snapshot_name (drop_last3 (now sample_env)) "Tiger" 60 "upload"
  = tiger_snapshot_upload.
Proof. vm_compute. reflexivity. Qed.

Lemma save_snapshot_fails_iff_witness :
  (save_snapshot sample_jpeg raising_env 1%nat
     (Some (sample_detection "Tiger" 3 60)) "upload"
     (∅ : gmap string (file nat))).2 = ∅.
Proof.
  apply (save_snapshot_fails_iff sample_jpeg raising_env 1%nat
           (Some (sample_detection "Tiger" 3 60)) "upload" ∅).
  vm_compute. reflexivity.
Defined.

Lemma save_then_delete_witness :
  (delete_snapshot tiger_snapshot_upload
     ({[ tiger_snapshot_upload := Jpeg 101%nat ]} : gmap string (file nat))).2
  = ∅ ∧
  ((delete_snapshot tiger_snapshot_upload
      ({[ tiger_snapshot_upload := Jpeg 101%nat ]} : gmap string (file nat))).1
   = true ↔
   is_Some (({[ tiger_snapshot_upload := Jpeg 101%nat ]}
             : gmap string (file nat)) !! tiger_snapshot_upload)).
Proof.
  apply (save_then_delete sample_jpeg sample_env 1%nat
           (Some (sample_detection "Tiger" 3 60)) "upload" ∅
           tiger_snapshot_upload {[ tiger_snapshot_upload := Jpeg 101%nat ]}).
  - vm_compute. reflexivity.
  - reflexivity.
Defined.

Lemma snapshot_save_failed_rejected_witness :
  verify_detection_2layer sample_jpeg (Some sample_model) raising_env 1%nat ∅
  = Returned (rejected [sample_detection "Tiger" 3 60] [] "Snapshot save failed",
              ∅).
Proof.
  apply (snapshot_save_failed_rejected sample_jpeg (Some sample_model)
           raising_env 1%nat ∅ [sample_detection "Tiger" 3 60]
           (sample_detection "Tiger" 3 60)).
  - vm_compute. reflexivity.
  - vm_compute. reflexivity.
  - right. eexists. reflexivity.
Defined.

Lemma snapshot_read_failed_rejected_witness :
  ∃ disk' : gmap string (file nat),
    verify_detection_2layer sample_jpeg (Some sample_model) damaged_env 1%nat ∅
    = Returned (rejected [sample_detection "Tiger" 3 60] []
                  "Snapshot read failed", disk') ∧
    disk' !! snapshot_name (drop_last3 (now damaged_env)) "Tiger" 60
               "verification" = None ∧
    ∀ q, q ≠ snapshot_name (drop_last3 (now damaged_env)) "Tiger" 60
               "verification" →
         disk' !! q = (∅ : gmap string (file nat)) !! q.
Proof.
  apply (snapshot_read_failed_rejected sample_jpeg (Some sample_model)
           damaged_env 1%nat ∅ [sample_detection "Tiger" 3 60]
           (sample_detection "Tiger" 3 60) 60).
  - vm_compute. reflexivity.
  - vm_compute. reflexivity.
  - vm_compute. reflexivity.
  - left. reflexivity.
Defined.

Lemma no_layer2_detection_rejected_witness :
  ∃ disk' : gmap string (file nat),
    verify_detection_2layer sample_jpeg (Some fading_model) sample_env 3%nat ∅
    = Returned (rejected [sample_detection "Tiger" 3 60] []
                  "No Layer 2 detection", disk') ∧
    is_Some (({[ tiger_snapshot := Jpeg 103%nat ]} : gmap string (file nat))
               !! tiger_snapshot) ∧
    disk' !! tiger_snapshot = None.
Proof.
  apply (no_layer2_detection_rejected sample_jpeg (Some fading_model)
           sample_env 3%nat ∅ [sample_detection "Tiger" 3 60]
           (sample_detection "Tiger" 3 60) tiger_snapshot
           {[ tiger_snapshot := Jpeg 103%nat ]} 103%nat);
    vm_compute; reflexivity.
Defined.

Lemma verify_disk_footprint_witness :
  ∃ r (disk' : gmap string (file nat)),
    verify_detection_2layer sample_jpeg (Some sample_model) sample_env 1%nat ∅
    = Returned (r, disk') ∧ disk' = ∅.
Proof.
  destruct (verify_disk_footprint sample_jpeg (Some sample_model) sample_env
              1%nat ∅) as (r & disk' & Hv & Hfoot).
  exists r, disk'. split; [exact Hv|].
  assert (Hs : snapshot_saved sample_jpeg (Some sample_model) sample_env 1%nat ∅
               = Some tiger_snapshot) by (vm_compute; reflexivity).
  rewrite Hs in Hfoot. destruct Hfoot as [_ Hrej].
  apply Hrej; [|reflexivity].
  assert (Hr : verify_detection_2layer sample_jpeg (Some sample_model)
                 sample_env 1%nat ∅
               = Returned
                   (rejected [sample_detection "Tiger" 3 60]
                      [sample_detection "Bear" 0 50]
                      "Species mismatch: L1=Tiger, L2=Bear", ∅))
    by (vm_compute; reflexivity).
  rewrite Hr in Hv. injection Hv as <- _. reflexivity.
Defined.

Lemma verified_result_rederivable_witness :
  ∃ p img2 b1 b2,
    Some elephant_snapshot = Some p ∧
    cv2_imread p ({[ elephant_snapshot := Jpeg 102%nat ]}
                  : gmap string (file nat)) = Some img2 ∧
    [sample_detection "Elephant" 1 55]
    = detect_objects (Some sample_model) 2%nat LAYER1_CONFIDENCE ∧
    [sample_detection "Elephant" 1 42]
    = detect_objects (Some sample_model) img2 LAYER2_CONFIDENCE ∧
    get_highest_confidence_detection [sample_detection "Elephant" 1 55] = Some b1 ∧
    get_highest_confidence_detection [sample_detection "Elephant" 1 42] = Some b2 ∧
    class_name b1 = class_name b2 ∧
    Some {| species := "Elephant";
            confidence_layer1 := percent 55;
            confidence_layer2 := percent 42;
            bbox_layer1 := (10, 20, 110, 220);
            bbox_layer2 := (10, 20, 110, 220) |} =
      Some {| species := class_name b2;
              confidence_layer1 := confidence b1;
              confidence_layer2 := confidence b2;
              bbox_layer1 := bbox b1;
              bbox_layer2 := bbox b2 |}.
Proof.
  apply (verified_result_rederivable sample_jpeg (Some sample_model) sample_env
           2%nat ∅
           (accepted [sample_detection "Elephant" 1 55]
              [sample_detection "Elephant" 1 42] elephant_snapshot
              (sample_detection "Elephant" 1 55)
              (sample_detection "Elephant" 1 42))
           {[ elephant_snapshot := Jpeg 102%nat ]}).
  - vm_compute. reflexivity.
  - reflexivity.
Defined.

Lemma stop_is_final_witness :
  start (Returned (sample_capture [])) (float_of_Z 2000)
    (stop (device_source []))
  = start (Returned (sample_capture [])) (float_of_Z 2000) (device_source []).
Proof.
  apply (stop_is_final sample_resample (float_of_Z 2000) (device_source [])).
  reflexivity.
Defined.

Lemma start_succeeds_iff_witness :
  let self' :=
    (start (Returned (sample_capture [])) (float_of_Z 1000)
       (WebcamProcessor_init (inl 0) (float_of_Z 999) (Some frame_model))).2 in
  is_running self' = true ∧
  last_time self' = float_of_Z 1000 ∧
  frame_count self' = 0 ∧
  ∃ c c', Returned (sample_capture []) = Returned c ∧ cap self' = Some c' ∧
          pending c' = pending c ∧
          props c' =
            props c ++ [("CAP_PROP_FRAME_WIDTH", 640);
                        ("CAP_PROP_FRAME_HEIGHT", 480);
                        ("CAP_PROP_FPS", 30)].
Proof.
  apply (start_succeeds_iff (Returned (sample_capture [])) (float_of_Z 1000)
           (WebcamProcessor_init (inl 0) (float_of_Z 999) (Some frame_model))).
  reflexivity.
Defined.

Lemma read_failure_keeps_running_witness :
  ∃ self',
    read_frame sample_resample (float_of_Z 1001) (device_source [None])
    = Returned ((false, None), self') ∧
    is_running self' = true ∧
    frame_count self' = frame_count (device_source [None]) ∧
    fps self' = fps (device_source [None]) ∧
    last_time self' = last_time (device_source [None]).
Proof.
  eapply (read_failure_keeps_running sample_resample (float_of_Z 1001)
            (device_source [None])).
  - reflexivity.
  - reflexivity.
  - reflexivity.
Defined.

(** A source that has delivered nine frames and holds a tenth. *)
Lemma read_frame_raises_witness :
  read_frame sample_resample (float_of_Z 1000)
    {| camera_index := inl 0;
       cap := Some (sample_capture [Some (sample_frame 480 640)]);
       running := true; fps := float_of_Z 0; last_time := float_of_Z 1000;
       frame_count := 9; wp_model := None |}
  = Raised ZeroDivisionError.
Proof.
  eapply (proj2 (read_frame_raises sample_resample (float_of_Z 1000) _
                   ZeroDivisionError) (sample_capture [Some (sample_frame 480 640)])
            (sample_frame 480 640) (sample_capture []));
    reflexivity.
Defined.

Lemma read_frames_counts_witness :
  ∃ frames self',
    read_frames sample_resample
      [float_of_Z 1001; float_of_Z 1002; float_of_Z 1003]
      (device_source [Some (sample_frame 480 640); Some (sample_frame 480 640)])
    = Returned (frames, self') ∧
    frame_count self' =
      frame_count
        (device_source [Some (sample_frame 480 640); Some (sample_frame 480 640)])
      + Z.of_nat (length frames) ∧
    (length frames ≤ 3)%nat.
Proof.
  eexists _, _. split; [vm_compute; reflexivity|].
  apply (read_frames_counts sample_resample
           [float_of_Z 1001; float_of_Z 1002; float_of_Z 1003]
           (device_source [Some (sample_frame 480 640); Some (sample_frame 480 640)])).
  vm_compute. reflexivity.
Defined.

(** Ten frames read over two seconds: 5 frames per second. *)
Lemma fps_after_ten_frames_witness :
  ∃ out self',
    read_frames sample_resample (nine_readings ++ [float_of_Z 1002])
      (device_source (Some <$> ten_frames))
    = Returned (out, self') ∧
    length out = 10%nat ∧
    frame_count self' = frame_count (device_source (Some <$> ten_frames)) + 10 ∧
    get_fps self' = float_of_Z 5 ∧
    last_time self' = float_of_Z 1002.
Proof.
  destruct (fps_after_ten_frames sample_resample nine_readings (float_of_Z 1002)
              (device_source (Some <$> ten_frames))
              {| opened := true;
                 props := [("CAP_PROP_FRAME_WIDTH", 640);
                           ("CAP_PROP_FRAME_HEIGHT", 480);
                           ("CAP_PROP_FPS", 30)];
                 pending := Some <$> ten_frames |}
              ten_frames [])
    as (out & self' & Hread & Hlen & Hcount & Hfps & Hlast);
    try (vm_compute; reflexivity);
    try (intros z; vm_compute; discriminate).
  exists out, self'. repeat split; assumption.
Defined.

Lemma process_frame_result_witness :
  let result :=
    process_frame sample_rectangle sample_putText sample_getTextSize
      sample_format_percent (Some frame_model) (device_source [])
      (sample_frame 240 320) true LAYER1_CONFIDENCE in
  result.1 = sample_frame 240 320.
Proof.
  apply (process_frame_result sample_rectangle sample_putText sample_getTextSize
           sample_format_percent (Some frame_model) (device_source [])
           (sample_frame 240 320) true LAYER1_CONFIDENCE).
  vm_compute. reflexivity.
Defined.

Example process_frame_marks :
  process_frame sample_rectangle sample_putText sample_getTextSize
    sample_format_percent (Some frame_model) (device_source [])
    (sample_frame 480 640) true LAYER1_CONFIDENCE
  = ({| shape := (480, 640); pixels := 3%nat |}, [sample_detection "Tiger" 3 60]).
Proof. vm_compute. reflexivity. Qed.

Lemma layer1_conf_of_best_species_witness :
  ∃ d rest,
    filter (λ d, class_name d = "Tiger")
      [sample_detection "Tiger" 3 60; sample_detection "Bear" 0 50;
       sample_detection "Tiger" 3 90] = d :: rest ∧
    layer1_conf
      [sample_detection "Tiger" 3 60; sample_detection "Bear" 0 50;
       sample_detection "Tiger" 3 90] "Tiger" (sample_detection "Tiger" 3 70)
    = confidence d ∧
    fge (percent 90)
      (layer1_conf
         [sample_detection "Tiger" 3 60; sample_detection "Bear" 0 50;
          sample_detection "Tiger" 3 90] "Tiger" (sample_detection "Tiger" 3 70))
    = true.
Proof.
  apply (layer1_conf_of_best_species
           [sample_detection "Tiger" 3 60; sample_detection "Bear" 0 50;
            sample_detection "Tiger" 3 90]
           (sample_detection "Tiger" 3 90) (sample_detection "Tiger" 3 70)).
  - repeat constructor.
  - vm_compute. reflexivity.
Defined.

(** The confidence saved is that of the first tiger, 0.6, while the best
    detection of the result has 0.9. *)
Example layer1_conf_first_not_best :
  layer1_conf
    [sample_detection "Tiger" 3 60; sample_detection "Bear" 0 50;
     sample_detection "Tiger" 3 90] "Tiger" (sample_detection "Tiger" 3 70)
  = percent 60.
Proof. vm_compute. reflexivity. Qed.

Example detected_species_sample :
  detected_species
    [sample_detection "Tiger" 3 60; sample_detection "Bear" 0 50;
     sample_detection "Tiger" 3 90; sample_detection "Bear" 0 50]
  = [("Tiger", sample_detection "Tiger" 3 90);
     ("Bear", sample_detection "Bear" 0 50)].
Proof. vm_compute. reflexivity. Qed.

Lemma loop_attempts_spaced_witness :
  ∃ st1,
    loop_turn (inl 0) true [sample_detection "Tiger" 3 80] (float_of_Z 1001)
      {| frame_skip_counter := 1; last_snapshot_time := float_of_Z 1000 |}
    = Returned (true, st1).
Proof.
  apply (loop_attempts_spaced "http://192.168.1.5:8080/video" true []
           {| frame_skip_counter := 1; last_snapshot_time := float_of_Z 1000 |}).
  - reflexivity.
  - reflexivity.
  - vm_compute. reflexivity.
Defined.

(** With a stream source the second trigger, one second after the first
    attempt, is not attempted; the third, six seconds after, is. *)
Example loop_turns_stream :
  (λ o, match o with Returned (attempts, _) => attempts | Raised _ => [] end)
    (loop_turns (inr "http://192.168.1.5:8080/video") true
       [ ([], float_of_Z 1000);
         ([sample_detection "Tiger" 3 80], float_of_Z 1000);
         ([], float_of_Z 1001);
         ([sample_detection "Tiger" 3 80], float_of_Z 1001);
         ([], float_of_Z 1006);
         ([sample_detection "Tiger" 3 80], float_of_Z 1006) ]
       {| frame_skip_counter := 0; last_snapshot_time := float_of_Z 0 |})
  = [float_of_Z 1000; float_of_Z 1006].
Proof. vm_compute. reflexivity. Qed.

Lemma alert_cooldown_round_trip_witness :
  ∃ collection',
    update_alert_timestamp (Some sample_alerts) None "Tiger" "u1" 9000400
    = Some collection' ∧
    check_alert_cooldown (Some collection') None "Tiger" "u1" 14000000
    = bool_decide (bson_datetime 9000400 + 5000000 ≤ 14000000) ∧
    check_alert_cooldown (Some collection') None "Tiger" "u1" 13999400 = false ∧
    check_alert_cooldown (Some collection') None "Bear" "u1" 14000000
    = check_alert_cooldown (Some sample_alerts) None "Bear" "u1" 14000000.
Proof.
  destruct (alert_cooldown_round_trip sample_alerts "Tiger" "u1" 9000400 14000000)
    as [(collection' & Hup & Hcheck & _ & _ & Hother) _].
  destruct (alert_cooldown_round_trip sample_alerts "Tiger" "u1" 9000400 13999400)
    as [(collection2 & Hup2 & _ & _ & Hearly & _) _].
  exists collection'. split; [exact Hup|]. split; [exact Hcheck|].
  split.
  - rewrite Hup in Hup2. injection Hup2 as <-. apply Hearly. lia.
  - apply Hother. discriminate.
Defined.


(** An alert recorded at 9.0004 s is allowed again at 14 s, which is 4.9996
    seconds later. *)
Example alert_allowed_within_cooldown :
  (λ c, check_alert_cooldown c None "Tiger" "u1" 14000000)
    (update_alert_timestamp (Some sample_alerts) None "Tiger" "u1" 9000400)
  = true.
Proof. reflexivity. Qed.
